(** * pfsspy.tracing: the streamline tracer of pfsspy, embedded in Rocq

    Source: [src/pfsspy/tracing.py] (classes [Tracer] and [PythonTracer]).

    The embedding follows the Python text:
    - a numpy array is a shape tuple together with its elements in row-major
      (C) order, and the numpy calls of [trace] ([atleast_2d], [flip], [.T],
      [row_stack], [a[:, k]], multiplication by a scalar) are functions on
      that representation, for arrays of any rank;
    - a Python float is an IEEE 754 binary64 value ([spec_float] at precision
      53, maximal exponent 1024), so NaN and the infinities are values;
    - a raised exception is the [Raise] result, and the calls made to the
      integrator [output._integrate_one_way] are recorded in a call log that
      is threaded through [trace] and survives an exception;
    - [pfsspy.Output], [pfsspy.FieldLine] and [astropy.constants.R_sun] are
      not part of the two source files: only what [trace] uses of them is
      declared here (a record of the attributes read or written), and the
      integrator and [R_sun] are taken as parameters. *)

From Stdlib Require Import String DecimalString.
From Stdlib Require Import List ZArith Arith Lia Bool.
From Stdlib Require Import SpecFloat.
Import ListNotations.

Set Implicit Arguments.

(** ** Python floats: IEEE 754 binary64 *)

Module Float64.

Definition float : Type := spec_float.

Definition prec : Z := 53.
Definition emax : Z := 1024.

(** [m * 2^e], rounded to nearest even. *)
Definition of_Z (m e : Z) : float := binary_normalize prec emax m e false.

Definition mul (x y : float) : float := SFmul prec emax x y.
Definition div (x y : float) : float := SFdiv prec emax x y.

Definition nan : float := S754_nan.

(** [numpy.isfinite] on one element. *)
Definition isfinite (x : float) : bool :=
  match x with
  | S754_zero _ | S754_finite _ _ _ => true
  | S754_infinity _ | S754_nan => false
  end.

(** The literal [1e-4]: the binary64 value nearest to 1/10000. *)
Definition lit_1e_4 : float := S754_finite false 7378697629483821 (-66).

Definition float_eq_dec (x y : float) : {x = y} + {x <> y}.
Proof.
  decide equality; try apply Z.eq_dec; try apply Pos.eq_dec; apply bool_dec.
Defined.

End Float64.

Import Float64.

(** ** Python results and exceptions *)

Module Py.

(** An exception instance: its class name and its message. *)
Record exn : Type := Exn { exn_class : string; exn_msg : string }.

Definition ValueError (msg : string) : exn := Exn "ValueError" msg.
Definition TypeError (msg : string) : exn := Exn "TypeError" msg.
Definition IndexError (msg : string) : exn := Exn "IndexError" msg.
Definition AxisError (msg : string) : exn := Exn "AxisError" msg.

Inductive result (A : Type) : Type :=
| Ok (v : A)
| Raise (e : exn).
Arguments Ok {A} v.
Arguments Raise {A} e.

Definition is_ok {A} (r : result A) : bool :=
  match r with Ok _ => true | Raise _ => false end.

(** [str(n)] for a non-negative integer. *)
Definition str_nat (n : nat) : string := NilEmpty.string_of_uint (Nat.to_uint n).

(** [str(t)] for a tuple of non-negative integers: [()], [(3,)], [(2, 3)]. *)
Fixpoint str_tuple_tail (t : list nat) : string :=
  match t with
  | [] => ""
  | n :: t' => (", " ++ str_nat n ++ str_tuple_tail t')%string
  end.

Definition str_tuple (t : list nat) : string :=
  match t with
  | [] => "()"
  | [n] => ("(" ++ str_nat n ++ ",)")%string
  | n :: t' => ("(" ++ str_nat n ++ str_tuple_tail t' ++ ")")%string
  end.

End Py.

Import Py.

(** ** numpy arrays *)

Module Np.

(** [shape] is the array's shape tuple, [data] its elements in row-major
    order.  The functions below raise where numpy raises, with the class
    of numpy's exception and a shortened message. *)
Record ndarray : Type := NdArray { shape : list nat; data : list float }.

(** Number of elements of an array of shape [sh]. *)
Definition size (sh : list nat) : nat := fold_right Nat.mul 1 sh.

(** The records that are arrays: as many elements as the shape says. *)
Definition wf (a : ndarray) : Prop := length (data a) = size (shape a).

Definition ndim (a : ndarray) : nat := length (shape a).

(** [numpy.atleast_2d]: a scalar becomes (1, 1), a vector of length k
    becomes (1, k), anything else is returned as it is. *)
Definition atleast_2d (a : ndarray) : ndarray :=
  match shape a with
  | [] => NdArray [1; 1] (data a)
  | [k] => NdArray [1; k] (data a)
  | _ => a
  end.

(** [count] consecutive blocks of [width] elements. *)
Fixpoint chunks {A} (width count : nat) (l : list A) : list (list A) :=
  match count with
  | 0 => []
  | S k => firstn width l :: chunks width k (skipn width l)
  end.

(** [for sub in a]: the sub-arrays along the first axis.  Iterating over
    a 0-d array is a TypeError. *)
Definition iter (a : ndarray) : result (list ndarray) :=
  match shape a with
  | [] => Raise (TypeError "iteration over a 0-d array")
  | d0 :: rest => Ok (map (NdArray rest) (chunks (size rest) d0 (data a)))
  end.

(** [numpy.flip(a, axis)] on the elements. *)
Fixpoint flip_data (axis : nat) (sh : list nat) (d : list float) : list float :=
  match sh with
  | [] => d
  | d0 :: rest =>
      match axis with
      | 0 => concat (rev (chunks (size rest) d0 d))
      | S axis' => concat (map (flip_data axis' rest) (chunks (size rest) d0 d))
      end
  end.

Definition flip (a : ndarray) (axis : nat) : result ndarray :=
  if axis <? ndim a
  then Ok (NdArray (shape a) (flip_data axis (shape a) (data a)))
  else Raise (AxisError "axis is out of bounds for array").

(** The j-th element of [l] if there is one. *)
Definition pick {A} (j : nat) (l : list A) : list A :=
  match nth_error l j with
  | Some x => [x]
  | None => []
  end.

(** The lists [ls] read crosswise: the j-th result collects the j-th
    element of every list, for j < [width]. *)
Definition crosswise {A} (width : nat) (ls : list (list A)) : list (list A) :=
  map (fun j => flat_map (pick j) ls) (seq 0 width).

(** [a.T] on the elements: the axes are reversed, so element
    [(i0, i1, ..)] of the array is element [(.., i1, i0)] of the result. *)
Fixpoint transpose_data (sh : list nat) (d : list float) : list float :=
  match sh with
  | [] => d
  | d0 :: rest =>
      concat (crosswise (size rest)
                        (map (transpose_data rest) (chunks (size rest) d0 d)))
  end.

Definition T (a : ndarray) : ndarray :=
  NdArray (rev (shape a)) (transpose_data (shape a) (data a)).

Definition shape_eqb (s1 s2 : list nat) : bool :=
  if list_eq_dec Nat.eq_dec s1 s2 then true else false.

(** [numpy.row_stack((a, b))], an alias of [numpy.vstack]: both arrays are
    made at least 2-d and concatenated along the first axis; the other
    axes must agree. *)
Definition row_stack (a b : ndarray) : result ndarray :=
  let a := atleast_2d a in
  let b := atleast_2d b in
  match shape a, shape b with
  | da :: ra, db :: rb =>
      if shape_eqb ra rb
      then Ok (NdArray ((da + db) :: ra) (data a ++ data b))
      else Raise (ValueError "all the input array dimensions except for the concatenation axis must match exactly")
  | _, _ => Raise (ValueError "zero-dimensional arrays cannot be concatenated")
  end.

(** [a[:, k]]: index [k] along the second axis, every index of the first.
    The IndexError names the index and the size of the axis, as numpy's
    does. *)
Definition getitem_col (a : ndarray) (k : nat) : result ndarray :=
  match shape a with
  | d0 :: d1 :: rest =>
      if k <? d1
      then Ok (NdArray (d0 :: rest)
                 (concat (map (fun block => nth k (chunks (size rest) d1 block) [])
                              (chunks (d1 * size rest) d0 (data a)))))
      else Raise (IndexError ("index " ++ str_nat k
                                ++ " is out of bounds for axis 1 with size "
                                ++ str_nat d1))
  | _ => Raise (IndexError ("too many indices for array: array is "
                              ++ str_nat (ndim a)
                              ++ "-dimensional, but 2 were indexed"))
  end.

(** [a[i]]: the i-th sub-array along the first axis. *)
Definition getitem (a : ndarray) (i : nat) : result ndarray :=
  match shape a with
  | [] => Raise (IndexError "invalid index to scalar variable")
  | d0 :: rest =>
      if i <? d0
      then Ok (NdArray rest (firstn (size rest) (skipn (i * size rest) (data a))))
      else Raise (IndexError ("index " ++ str_nat i
                                ++ " is out of bounds for axis 0 with size "
                                ++ str_nat d0))
  end.

(** [a * c] for a scalar [c]. *)
Definition mul_scalar (a : ndarray) (c : float) : ndarray :=
  NdArray (shape a) (map (fun v => mul v c) (data a)).

(** The rows of a 2-d array, as lists. *)
Definition rows (a : ndarray) : list (list float) :=
  match shape a with
  | [r; c] => chunks c r (data a)
  | _ => []
  end.

(** The columns of a 2-d array, as lists: the rows of [a.T]. *)
Definition cols (a : ndarray) : list (list float) := rows (T a).

(** True when some element is NaN or an infinity. *)
Definition has_nonfinite (a : ndarray) : bool :=
  existsb (fun v => negb (isfinite v)) (data a).

End Np.

Import Np.

(** ** [pfsspy/tracing.py] *)

Module Tracing.

(** *** The effects of [trace]: exceptions and calls to the integrator *)

(** One call [output._integrate_one_way(dt, start_point, rtol, atol)]. *)
Record call : Type :=
  Call { call_dt : Z; call_start_point : ndarray; call_rtol : float; call_atol : float }.

(** A computation takes the log of the integrator calls made so far and
    gives its outcome and the log afterwards; the log is kept when the
    outcome is an exception. *)
Definition M (A : Type) : Type := list call -> result A * list call.

Definition ret {A} (v : A) : M A := fun log => (Ok v, log).

Definition bind {A B} (m : M A) (k : A -> M B) : M B :=
  fun log =>
    match m log with
    | (Ok v, log') => k v log'
    | (Raise e, log') => (Raise e, log')
    end.

(** A step that touches no log: a numpy call, a validation. *)
Definition lift {A} (r : result A) : M A := fun log => (r, log).

Declare Scope py_scope.
Delimit Scope py_scope with py.
Notation "x <- m ;; k" := (bind m (fun x => k))
  (at level 61, m at next level, right associativity) : py_scope.
Notation "m ;;; k" := (bind m (fun _ => k))
  (at level 61, right associativity) : py_scope.
Local Open Scope py_scope.

(** *** class Tracer *)

(** [Tracer.validate_seeds_shape]. *)
Definition validate_seeds_shape (seeds : ndarray) : result unit :=
  if negb (ndim seeds =? 2)
  then Raise (ValueError ("seeds must be a 2D array (got shape "
                            ++ str_tuple (shape seeds) ++ ")"))
  else if negb (nth 1 (shape seeds) 0 =? 3)
  then Raise (ValueError ("seeds must be a (n, 3) shaped array (got shape "
                            ++ str_tuple (shape seeds) ++ ")"))
  else Ok tt.

(** *** class PythonTracer *)

(** The attributes set by [__init__]. *)
Record PythonTracer : Type := { atol : float; rtol : float }.

(** A call of [PythonTracer] with positional arguments [args] and keyword
    arguments [kwargs], against the signature
    [__init__(self, atol=1e-4, rtol=1e-4)]: Python binds the positional
    arguments in order, then the keywords, and raises a TypeError for an
    unknown keyword, a parameter given twice or a surplus positional
    argument; [__init__] itself only stores the two values.  The values
    are floats here, and a keyword occurs once in [kwargs]. *)
Definition lookup (key : string) (kwargs : list (string * float)) : option float :=
  match find (fun kv => String.eqb (fst kv) key) kwargs with
  | Some kv => Some (snd kv)
  | None => None
  end.

(** The keywords are matched one after the other against the parameter
    names; [npos] positional arguments are already bound. *)
Fixpoint check_keywords (npos : nat) (kwargs : list (string * float)) : option exn :=
  match kwargs with
  | [] => None
  | (k, _) :: kwargs' =>
      if String.eqb k "atol"
      then if 0 <? npos
           then Some (TypeError "__init__() got multiple values for argument 'atol'")
           else check_keywords npos kwargs'
      else if String.eqb k "rtol"
      then if 1 <? npos
           then Some (TypeError "__init__() got multiple values for argument 'rtol'")
           else check_keywords npos kwargs'
      else Some (TypeError ("__init__() got an unexpected keyword argument '" ++ k ++ "'"))
  end.

Definition bind_param (name : string) (positional : option float)
           (kwargs : list (string * float)) (default : float) : float :=
  match positional, lookup name kwargs with
  | Some v, _ => v
  | None, Some v => v
  | None, None => default
  end.

Definition __init__ (args : list float) (kwargs : list (string * float))
  : result PythonTracer :=
  match check_keywords (length args) kwargs with
  | Some e => Raise e
  | None =>
      if 2 <? length args
      then Raise (TypeError ("__init__() takes from 1 to 3 positional arguments but "
                               ++ str_nat (S (length args)) ++ " were given"))
      else Ok {| atol := bind_param "atol" (nth_error args 0) kwargs lit_1e_4;
                 rtol := bind_param "rtol" (nth_error args 1) kwargs lit_1e_4 |}
  end.

Section Trace.

(** The type of [output.dtime]. *)
Variable Time : Type.

(** [astropy.constants.R_sun], in metres. *)
Variable R_sun : float.

(** What [trace] uses of a [pfsspy.Output]: the attribute [dtime] and
    the method [_integrate_one_way], which returns an array or raises.
    The method is a function of its arguments: the field solution is only
    read while tracing. *)
Record Output : Type :=
  { dtime : Time;
    _integrate_one_way : Z -> ndarray -> float -> float -> result ndarray }.

Inductive Frame : Type := HeliographicCarrington.

(** What [trace] puts into a [pfsspy.FieldLine]: the six arguments of
    the constructor and the two attributes assigned afterwards. *)
Record FieldLine : Type :=
  { x : ndarray;
    y : ndarray;
    z : ndarray;
    frame : Frame;
    obstime : Time;
    representation_type : string;
    _output : Output;
    _expansion_factor : option float }.

(** The call of the integrator, recorded in the log. *)
Definition integrate (output : Output) (dt : Z) (seed : ndarray)
           (rtol atol : float) : M ndarray :=
  fun log =>
    (_integrate_one_way output dt seed rtol atol,
     log ++ [Call dt seed rtol atol]).

(** The array [xout] of one iteration (lines 72 and 73). *)
Definition stitch (xforw xback : ndarray) : result ndarray :=
  match flip xback 1 with
  | Raise e => Raise e
  | Ok xback => row_stack (T xback) (T xforw)
  end.

(** The body of the loop of [trace], up to the [FieldLine] built for
    [seed]. *)
Definition trace_seed (self : PythonTracer) (output : Output) (seed : ndarray)
  : M FieldLine :=
  xforw <- integrate output 1 seed (rtol self) (atol self) ;;
  xback <- integrate output (-1) seed (rtol self) (atol self) ;;
  xout <- lift (stitch xforw xback) ;;
  x0 <- lift (getitem_col xout 0) ;;
  x1 <- lift (getitem_col xout 1) ;;
  x2 <- lift (getitem_col xout 2) ;;
  ret {| x := mul_scalar x0 R_sun;
         y := mul_scalar x1 R_sun;
         z := mul_scalar x2 R_sun;
         frame := HeliographicCarrington;
         obstime := dtime output;
         representation_type := "cartesian";
         _output := output;
         _expansion_factor := None |}.

(** The loop [for seed in seeds: ...; flines.append(fline)]. *)
Fixpoint trace_loop (self : PythonTracer) (output : Output)
         (seeds : list ndarray) (flines : list FieldLine) : M (list FieldLine) :=
  match seeds with
  | [] => ret flines
  | seed :: seeds' =>
      fline <- trace_seed self output seed ;;
      trace_loop self output seeds' (flines ++ [fline])
  end.

(** [PythonTracer.trace]. *)
Definition trace (self : PythonTracer) (seeds : ndarray) (output : Output)
  : M (list FieldLine) :=
  let seeds := atleast_2d seeds in
  lift (validate_seeds_shape seeds) ;;;
  seeds <- lift (iter seeds) ;;
  trace_loop self output seeds [].

(** *** Observations used to state the properties *)

(** An array the integrator may return for a streamline: shape (3, N),
    one column per point. *)
Definition is_streamline (a : ndarray) : bool :=
  match shape a with
  | [3; n] => length (data a) =? 3 * n
  | _ => false
  end.

(** The integrator answers both calls made for [seed] with a
    streamline. *)
Definition integrates (self : PythonTracer) (output : Output) (seed : ndarray)
           (xforw xback : ndarray) : Prop :=
  _integrate_one_way output 1 seed (rtol self) (atol self) = Ok xforw /\
  _integrate_one_way output (-1) seed (rtol self) (atol self) = Ok xback /\
  is_streamline xforw = true /\ is_streamline xback = true.

(** The point sequence of a Field Line: the i-th point is
    [[x[i]; y[i]; z[i]]]. *)
Fixpoint zip3 (xs ys zs : list float) : list (list float) :=
  match xs, ys, zs with
  | a :: xs', b :: ys', c :: zs' => [a; b; c] :: zip3 xs' ys' zs'
  | _, _, _ => []
  end.

Definition fline_points (fline : FieldLine) : list (list float) :=
  zip3 (data (x fline)) (data (y fline)) (data (z fline)).

(** A point in units of [R_sun] expressed in metres. *)
Definition to_metres (p : list float) : list float :=
  map (fun v => mul v R_sun) p.

(** A batch of shape (n, 3). *)
Definition is_n_by_3 (seeds : ndarray) : bool :=
  match shape seeds with
  | [_; 3] => true
  | _ => false
  end.

(** The outcome of a computation started with an empty log. *)
Definition outcome {A} (m : M A) : result A := fst (m []).

(** The integrator calls a computation makes, in order. *)
Definition calls {A} (m : M A) : list call := snd (m []).

(** A computation is framed when it only appends to the log and its
    outcome does not depend on the log it starts with. *)
Definition framed {A} (m : M A) : Prop :=
  forall log, m log = (outcome m, log ++ calls m).

(** Equality of points is decidable. *)
Definition point_eq_dec : forall p q : list float, {p = q} + {p <> q} :=
  list_eq_dec float_eq_dec.

End Trace.

End Tracing.

(** ** The integrator status of the specification *)

Module Status.

Import Tracing.

(** Modelled from the spec: the status flag that the Streamline Integrator
    of section 4.2 reports for a half-line.  [Output._integrate_one_way]
    is not among the source files, and [trace] receives an array from it,
    which it flips and transposes: no status reaches [trace]. *)
Inductive status : Type := reached_inner | reached_outer | max_steps_exceeded.

(** Modelled from the spec: an integrator as section 4.2 describes it, the
    points of a half-line and the status it stopped with.  The points are
    what [_integrate_one_way] returns to [trace]. *)
Record Integrator : Type :=
  { points_of : Z -> ndarray -> float -> float -> result ndarray;
    status_of : Z -> ndarray -> float -> float -> status }.

Definition as_output {Time} (t : Time) (i : Integrator) : Output Time :=
  {| dtime := t; _integrate_one_way := points_of i |}.

Definition is_max_steps (s : status) : bool :=
  match s with max_steps_exceeded => true | _ => false end.

(** One of the two half-traces of [seed] stopped at the step limit. *)
Definition hits_max_steps (i : Integrator) (self : PythonTracer) (seed : ndarray) : bool :=
  is_max_steps (status_of i 1 seed (rtol self) (atol self))
  || is_max_steps (status_of i (-1) seed (rtol self) (atol self)).

End Status.

(** ** Concrete data *)

Module Sample.

Import Tracing Status.

Definition zero : float := S754_zero false.
Definition one : float := of_Z 1 0.
Definition two : float := of_Z 2 0.
(** 1.5 and 2.5 *)
Definition one_half : float := of_Z 3 (-1).
Definition two_half : float := of_Z 5 (-1).
Definition minus_one : float := of_Z (-1) 0.

(** [astropy.constants.R_sun.value], 695700000 m. *)
Definition R_sun : float := of_Z 695700000 0.

Definition coord (seed : ndarray) (k : nat) : float := nth k (data seed) zero.

(** An integrator on the x axis of a shell with outer radius 2.5: the
    outward half-line goes from the seed through (2, 0, 0) to (2.5, 0, 0),
    the inward half-line from the seed to (1, 0, 0). *)
Definition radial (dt : Z) (seed : ndarray) (rtol atol : float) : result ndarray :=
  if (0 <? dt)%Z
  then Ok (NdArray [3; 3] [coord seed 0; two; two_half;
                           coord seed 1; zero; zero;
                           coord seed 2; zero; zero])
  else Ok (NdArray [3; 2] [coord seed 0; one;
                           coord seed 1; zero;
                           coord seed 2; zero]).

Definition output : Output nat := {| dtime := 0; _integrate_one_way := radial |}.

Definition tracer : PythonTracer := {| atol := lit_1e_4; rtol := lit_1e_4 |}.

Definition seed_a : ndarray := NdArray [3] [one_half; zero; zero].
Definition batch_ab : ndarray := NdArray [2; 3] [one_half; zero; zero; two; zero; zero].

(** A (1, 3) batch whose first coordinate is NaN. *)
Definition seed_nan : ndarray := NdArray [3] [nan; zero; zero].
Definition batch_nan : ndarray := NdArray [1; 3] [nan; zero; zero].

(** A batch of shape (2, 2). *)
Definition batch_22 : ndarray := NdArray [2; 2] [one; zero; two; zero].

(** Two integrators with the points of [radial].  The first belongs to a
    shell whose outer radius lies beyond 2.5 and allows two steps: its
    outward half-line stops at the step limit.  The second belongs to the
    shell of outer radius 2.5: its outward half-line reaches the outer
    boundary. *)
Definition limited : Integrator :=
  {| points_of := radial;
     status_of := fun dt _ _ _ => if (0 <? dt)%Z then max_steps_exceeded else reached_inner |}.

Definition converged : Integrator :=
  {| points_of := radial;
     status_of := fun dt _ _ _ => if (0 <? dt)%Z then reached_outer else reached_inner |}.

(** A batch of shape (0, 3): no seed. *)
Definition batch_empty : ndarray := NdArray [0; 3] [].

(** A vector of four coordinates. *)
Definition vector4 : ndarray := NdArray [4] [one; zero; zero; zero].

(** An integrator that raises on a start point whose first coordinate is
    not finite, and is [radial] on the others. *)
Definition faulty (dt : Z) (seed : ndarray) (rtol atol : float) : result ndarray :=
  if isfinite (coord seed 0)
  then radial dt seed rtol atol
  else Raise (ValueError "start point is not finite").

Definition output_faulty : Output nat := {| dtime := 0; _integrate_one_way := faulty |}.

(** Three seeds, the second with a NaN coordinate. *)
Definition batch_a_nan_b : ndarray :=
  NdArray [3; 3] [one_half; zero; zero; nan; zero; zero; two; zero; zero].

(** An integrator whose outward answer has three rows and whose inward
    answer has two. *)
Definition lopsided (dt : Z) (seed : ndarray) (rtol atol : float) : result ndarray :=
  if (0 <? dt)%Z
  then Ok (NdArray [3; 1] [coord seed 0; coord seed 1; coord seed 2])
  else Ok (NdArray [2; 1] [coord seed 0; coord seed 1]).

Definition output_lopsided : Output nat :=
  {| dtime := 0; _integrate_one_way := lopsided |}.

(** An integrator that answers with points of [rows_] coordinates: the
    start point, padded with zeros or cut, then a second point of ones. *)
Definition wide (rows_ : nat) (dt : Z) (seed : ndarray) (rtol atol : float)
  : result ndarray :=
  Ok (NdArray [rows_; 2]
        (flat_map (fun k => [coord seed k; one]) (seq 0 rows_))).

Definition output_wide (rows_ : nat) : Output nat :=
  {| dtime := 0; _integrate_one_way := wide rows_ |}.

(** The seed (2, 0, 0) and a batch of one seed. *)
Definition seed_b : ndarray := NdArray [3] [two; zero; zero].
Definition batch_b : ndarray := NdArray [1; 3] [two; zero; zero].
Definition batch_abb : ndarray :=
  NdArray [3; 3] [one_half; zero; zero; two; zero; zero; two; zero; zero].

(** Two seeds, the second with an infinite coordinate. *)
Definition seed_inf : ndarray := NdArray [3] [S754_infinity false; zero; zero].
Definition batch_inf : ndarray :=
  NdArray [2; 3] [one_half; zero; zero; S754_infinity false; zero; zero].

End Sample.

(** * Properties *)

(** ** Blocks of a list *)

Module ChunkFacts.

Section Chunks.

Variable A : Type.
Implicit Types (l : list A) (ls : list (list A)).

Lemma chunks_length width count l :
  length (chunks width count l) = count.
Proof.
  revert l; induction count as [|k IH]; intros l; simpl; [reflexivity|].
  now rewrite IH.
Qed.

(** Cutting the concatenation of blocks of equal width gives the
    blocks back. *)
Lemma chunks_concat width ls :
  Forall (fun r => length r = width) ls ->
  chunks width (length ls) (concat ls) = ls.
Proof.
  induction 1 as [|r ls Hr _ IH]; simpl; [reflexivity|].
  rewrite <- Hr in *.
  rewrite firstn_app, skipn_app, Nat.sub_diag, firstn_all, skipn_all.
  simpl. now rewrite app_nil_r, IH.
Qed.

Lemma concat_chunks width count l :
  length l = count * width ->
  concat (chunks width count l) = l.
Proof.
  revert l; induction count as [|k IH]; intros l Hl; simpl in *.
  - now destruct l.
  - rewrite IH; [apply firstn_skipn|].
    rewrite length_skipn. lia.
Qed.

Lemma chunks_widths width count l :
  length l = count * width ->
  Forall (fun r => length r = width) (chunks width count l).
Proof.
  revert l; induction count as [|k IH]; intros l Hl; simpl in *; constructor.
  - rewrite length_firstn. lia.
  - apply IH. rewrite length_skipn. lia.
Qed.

Lemma chunks_app width c1 c2 l1 l2 :
  length l1 = c1 * width ->
  chunks width (c1 + c2) (l1 ++ l2) = chunks width c1 l1 ++ chunks width c2 l2.
Proof.
  revert l1; induction c1 as [|k IH]; intros l1 Hl; simpl in *.
  - now destruct l1.
  - rewrite firstn_app, skipn_app.
    replace (width - length l1) with 0 by lia. simpl.
    rewrite app_nil_r. f_equal.
    apply IH. rewrite length_skipn. lia.
Qed.

(** The i-th block starts at offset [i * width]. *)
Lemma chunks_nth_error width count l i :
  i < count ->
  nth_error (chunks width count l) i = Some (firstn width (skipn (i * width) l)).
Proof.
  revert l i; induction count as [|k IH]; intros l i Hi; [lia|].
  destruct i as [|i]; simpl; [reflexivity|].
  rewrite IH by lia. now rewrite skipn_skipn, Nat.add_comm.
Qed.

(** Blocks of width one are the elements. *)
Lemma chunks_singletons l :
  chunks 1 (length l) l = map (fun a => [a]) l.
Proof.
  induction l as [|a l IH]; simpl; [reflexivity|]. now rewrite IH.
Qed.

(** *** Reading lists crosswise *)

Lemma crosswise_eq width ls :
  crosswise width ls = map (fun j => flat_map (@pick A j) ls) (seq 0 width).
Proof. reflexivity. Qed.

Lemma crosswise_length width ls : length (crosswise width ls) = width.
Proof. unfold crosswise. now rewrite length_map, length_seq. Qed.

Lemma pick_length j l : j < length l -> length (pick j l) = 1.
Proof.
  intros Hj. unfold pick.
  destruct (nth_error l j) eqn:E; [reflexivity|].
  apply nth_error_None in E. lia.
Qed.

Lemma flat_map_pick_length j width ls :
  j < width ->
  Forall (fun r => length r = width) ls ->
  length (flat_map (pick j) ls) = length ls.
Proof.
  intros Hj; induction 1 as [|r ls Hr _ IH]; simpl; [reflexivity|].
  rewrite length_app, IH, pick_length by lia. reflexivity.
Qed.

Lemma crosswise_widths width ls :
  Forall (fun r => length r = width) ls ->
  Forall (fun c => length c = length ls) (crosswise width ls).
Proof.
  intros H. rewrite crosswise_eq. apply Forall_map, Forall_forall.
  intros j Hj. apply in_seq in Hj.
  apply flat_map_pick_length with (width := width); [lia | assumption].
Qed.

Lemma rev_seq n : rev (seq 0 n) = map (fun j => n - 1 - j) (seq 0 n).
Proof.
  induction n as [|n IH]; [reflexivity|].
  rewrite seq_S at 1. rewrite rev_app_distr. simpl rev. simpl app.
  rewrite IH. cbn [seq map]. rewrite <- seq_shift, map_map.
  f_equal; [lia|]. apply map_ext. intros; lia.
Qed.

Lemma pick_rev j l :
  j < length l -> pick j (rev l) = pick (length l - 1 - j) l.
Proof.
  intros Hj. unfold pick. rewrite nth_error_rev.
  apply Nat.ltb_lt in Hj. rewrite Hj.
  now replace (length l - S j) with (length l - 1 - j) by lia.
Qed.

(** Reversing every list reverses the crosswise reading. *)
Lemma crosswise_map_rev width ls :
  Forall (fun r => length r = width) ls ->
  crosswise width (map (@rev A) ls) = rev (crosswise width ls).
Proof.
  intros H. rewrite !crosswise_eq, <- map_rev, rev_seq, map_map.
  apply map_ext_in. intros j Hj. apply in_seq in Hj.
  induction H as [|r ls Hr _ IH]; simpl; [reflexivity|].
  rewrite IH, pick_rev by lia. now rewrite Hr.
Qed.

Lemma flat_map_pick0_singletons l :
  flat_map (pick 0) (map (fun a => [a]) l) = l.
Proof.
  induction l as [|a l IH]; simpl; [reflexivity|]. now rewrite IH.
Qed.

End Chunks.

End ChunkFacts.

(** ** Arrays of rank two *)

Module NpFacts.

Import ChunkFacts.

Lemma concat_singletons {A} (l : list A) : concat (map (fun a => [a]) l) = l.
Proof. induction l as [|a l IH]; simpl; [reflexivity|]. now rewrite IH. Qed.

Lemma concat_uniform_length {A} width (ls : list (list A)) :
  Forall (fun r => length r = width) ls ->
  length (concat ls) = length ls * width.
Proof.
  induction 1 as [|r ls Hr _ IH]; simpl; [reflexivity|].
  rewrite length_app, IH, Hr. reflexivity.
Qed.

Lemma atleast_2d_idem a : atleast_2d (atleast_2d a) = atleast_2d a.
Proof.
  unfold atleast_2d. destruct a as [[|d0 [|d1 rest]] d]; reflexivity.
Qed.

Lemma size_1d c : size [c] = c.
Proof. unfold size; simpl. lia. Qed.

(** Transposing a vector leaves it as it is. *)
Lemma transpose_data_1d c (row : list float) :
  length row = c -> transpose_data [c] row = row.
Proof.
  intros <-. cbn [transpose_data size fold_right].
  rewrite chunks_singletons, map_map. unfold crosswise. cbn [seq map concat].
  rewrite flat_map_concat_map, map_map. cbn.
  now rewrite concat_singletons, app_nil_r.
Qed.

Lemma flip_data_1d c (row : list float) :
  length row = c -> flip_data 0 [c] row = rev row.
Proof.
  intros <-. cbn [flip_data size fold_right].
  now rewrite chunks_singletons, <- map_rev, concat_singletons.
Qed.

Section Rank2.

Variables (a : ndarray) (r c : nat).
Hypothesis Hshape : shape a = [r; c].
Hypothesis Hwf : wf a.

Lemma data_length : length (data a) = r * c.
Proof.
  unfold wf in Hwf. rewrite Hwf, Hshape. unfold size; simpl. lia.
Qed.

Lemma rows_eq : rows a = chunks c r (data a).
Proof. unfold rows. now rewrite Hshape. Qed.

Lemma rows_widths : Forall (fun row => length row = c) (rows a).
Proof. rewrite rows_eq. apply chunks_widths, data_length. Qed.

Lemma rows_length : length (rows a) = r.
Proof. rewrite rows_eq. apply chunks_length. Qed.

Lemma data_T : data (T a) = concat (crosswise c (rows a)).
Proof.
  unfold T; rewrite Hshape. cbn [data transpose_data].
  rewrite size_1d. fold (chunks c r (data a)). rewrite <- rows_eq.
  f_equal. f_equal.
  rewrite <- (map_id (rows a)) at 2.
  apply map_ext_Forall. eapply Forall_impl; [|apply rows_widths].
  intros row Hrow. now apply transpose_data_1d.
Qed.

Lemma shape_T : shape (T a) = [c; r].
Proof. unfold T; now rewrite Hshape. Qed.

(** The columns are the rows read crosswise. *)
Lemma cols_crosswise : cols a = crosswise c (rows a).
Proof.
  unfold cols, rows at 1. rewrite shape_T, data_T.
  transitivity (chunks r (length (crosswise c (rows a)))
                       (concat (crosswise c (rows a)))).
  - now rewrite crosswise_length.
  - apply chunks_concat. rewrite <- rows_length.
    apply crosswise_widths, rows_widths.
Qed.

Lemma cols_length : length (cols a) = c.
Proof. rewrite cols_crosswise. apply crosswise_length. Qed.

Lemma cols_widths : Forall (fun col => length col = r) (cols a).
Proof.
  rewrite cols_crosswise, <- rows_length.
  apply crosswise_widths, rows_widths.
Qed.

Lemma wf_T : wf (T a).
Proof.
  unfold wf. rewrite shape_T, data_T, <- cols_crosswise.
  rewrite (concat_uniform_length cols_widths), cols_length.
  unfold size; simpl. lia.
Qed.

Lemma rows_T : rows (T a) = cols a.
Proof. reflexivity. Qed.

(** [numpy.flip(a, axis=1)] reverses every row. *)
Lemma flip_axis1 :
  flip a 1 = Ok (NdArray [r; c] (concat (map (@rev float) (rows a)))).
Proof.
  unfold flip, ndim. rewrite Hshape. cbn [length Nat.ltb Nat.leb].
  cbn [flip_data]. rewrite size_1d. fold (chunks c r (data a)).
  rewrite <- rows_eq. do 3 f_equal.
  apply map_ext_Forall. eapply Forall_impl; [|apply rows_widths].
  intros row Hrow. now apply flip_data_1d.
Qed.

(** [a[:, k]] holds the k-th element of every row. *)
Lemma getitem_col_rows k :
  k < c -> getitem_col a k = Ok (NdArray [r] (flat_map (pick k) (rows a))).
Proof.
  intros Hk. unfold getitem_col. rewrite Hshape.
  apply Nat.ltb_lt in Hk. rewrite Hk.
  cbn [size fold_right]. rewrite Nat.mul_1_r.
  fold (chunks c r (data a)). rewrite <- rows_eq.
  do 2 f_equal. rewrite flat_map_concat_map. f_equal.
  apply map_ext_Forall. eapply Forall_impl; [|apply rows_widths].
  intros row Hrow. rewrite <- Hrow, chunks_singletons.
  clear. revert k. induction row as [|v row IH]; intros [|k]; simpl; auto.
Qed.

End Rank2.

Lemma rows_of_rows r c (ls : list (list float)) :
  length ls = r ->
  Forall (fun row => length row = c) ls ->
  rows (NdArray [r; c] (concat ls)) = ls.
Proof.
  intros <- H. unfold rows; simpl. now apply chunks_concat.
Qed.

Lemma wf_of_rows r c (ls : list (list float)) :
  length ls = r ->
  Forall (fun row => length row = c) ls ->
  wf (NdArray [r; c] (concat ls)).
Proof.
  intros <- H. unfold wf; simpl. rewrite (concat_uniform_length H).
  unfold size; simpl. lia.
Qed.

(** The columns of the flipped array are the columns in reverse order. *)
Lemma cols_flip a r c :
  shape a = [r; c] -> wf a ->
  cols (NdArray [r; c] (concat (map (@rev float) (rows a)))) = rev (cols a).
Proof.
  intros Hs Hw.
  assert (Hl : length (map (@rev float) (rows a)) = r)
    by (rewrite length_map; eapply rows_length; eauto).
  assert (Hf : Forall (fun row => length row = c) (map (@rev float) (rows a))).
  { apply Forall_map. eapply Forall_impl; [|eapply rows_widths; eauto].
    intros row Hrow; simpl. now rewrite length_rev. }
  rewrite (@cols_crosswise (NdArray [r; c] _) r c eq_refl (wf_of_rows Hl Hf)).
  rewrite (rows_of_rows Hl Hf).
  rewrite (cols_crosswise Hs Hw).
  apply crosswise_map_rev. eapply rows_widths; eauto.
Qed.

End NpFacts.

(** ** The call log *)

Module LogFacts.

Import Tracing.
Local Open Scope py_scope.

Lemma framed_ret {A} (v : A) : framed (ret v).
Proof. intros log. unfold ret, outcome, calls; simpl. now rewrite app_nil_r. Qed.

Lemma framed_lift {A} (r : result A) : framed (lift r).
Proof. intros log. unfold lift, outcome, calls; simpl. now rewrite app_nil_r. Qed.

Lemma framed_integrate Time (output : Output Time) dt seed rt at_ :
  framed (integrate output dt seed rt at_).
Proof. intros log. reflexivity. Qed.

Lemma bind_run {A B} (m : M A) (k : A -> M B) log :
  framed m ->
  bind m k log =
  match outcome m with
  | Ok v => k v (log ++ calls m)
  | Raise e => (Raise e, log ++ calls m)
  end.
Proof.
  intros Hm. unfold bind. rewrite (Hm log). now destruct (outcome m).
Qed.

Lemma framed_bind {A B} (m : M A) (k : A -> M B) :
  framed m -> (forall v, framed (k v)) -> framed (bind m k).
Proof.
  intros Hm Hk log. unfold outcome, calls.
  rewrite !bind_run by assumption.
  destruct (outcome m) as [v|e]; simpl.
  - rewrite (Hk v (calls m)), (Hk v (log ++ calls m)); simpl.
    now rewrite app_assoc.
  - reflexivity.
Qed.

Lemma outcome_bind {A B} (m : M A) (k : A -> M B) :
  framed m -> (forall v, framed (k v)) ->
  outcome (bind m k) =
  match outcome m with
  | Ok v => outcome (k v)
  | Raise e => Raise e
  end.
Proof.
  intros Hm Hk. unfold outcome at 1. rewrite bind_run by assumption.
  destruct (outcome m) as [v|e]; simpl; [|reflexivity].
  now rewrite (Hk v).
Qed.

Lemma calls_bind {A B} (m : M A) (k : A -> M B) :
  framed m -> (forall v, framed (k v)) ->
  calls (bind m k) =
  calls m ++ match outcome m with
             | Ok v => calls (k v)
             | Raise _ => []
             end.
Proof.
  intros Hm Hk. unfold calls at 1. rewrite bind_run by assumption.
  destruct (outcome m) as [v|e]; simpl; [|now rewrite app_nil_r].
  now rewrite (Hk v).
Qed.

Create HintDb framed.
#[export] Hint Resolve framed_ret framed_lift framed_integrate framed_bind : framed.

Section Framed.

Variables (Time : Type) (R : float) (self : PythonTracer) (output : Output Time).

Lemma framed_trace_seed seed : framed (trace_seed R self output seed).
Proof. unfold trace_seed. auto 20 with framed. Qed.

Lemma framed_trace_loop seeds flines :
  framed (trace_loop R self output seeds flines).
Proof.
  revert flines; induction seeds as [|seed seeds IH]; intros flines; simpl.
  - apply framed_ret.
  - apply framed_bind; [apply framed_trace_seed | auto].
Qed.

Lemma framed_trace seeds : framed (trace R self seeds output).
Proof.
  unfold trace. apply framed_bind; [apply framed_lift|]. intros _.
  apply framed_bind; [apply framed_lift|]. intros subs.
  apply framed_trace_loop.
Qed.

End Framed.

End LogFacts.

(** ** Stitching the two half-lines *)

Module StitchFacts.

Import Tracing ChunkFacts NpFacts LogFacts.
Local Open Scope py_scope.

Lemma is_streamline_inv a :
  is_streamline a = true -> exists n, shape a = [3; n] /\ wf a.
Proof.
  unfold is_streamline, wf. destruct a as [sh d]; simpl.
  destruct sh as [|[|[|[|[|]]]] [|n [|]]]; try discriminate.
  intros H%Nat.eqb_eq. exists n. split; [reflexivity|].
  rewrite H. unfold size; simpl. lia.
Qed.

Lemma zip3_picks (ls : list (list float)) :
  Forall (fun p => length p = 3) ls ->
  zip3 (flat_map (pick 0) ls) (flat_map (pick 1) ls) (flat_map (pick 2) ls) = ls.
Proof.
  induction 1 as [|p ls Hp _ IH]; simpl; [reflexivity|].
  destruct p as [|a [|b [|c [|]]]]; try discriminate. simpl. now rewrite IH.
Qed.

Lemma zip3_map (f : float -> float) xs ys zs :
  zip3 (map f xs) (map f ys) (map f zs) = map (map f) (zip3 xs ys zs).
Proof.
  revert ys zs; induction xs as [|a xs IH]; intros [|b ys] [|c zs]; simpl;
    try reflexivity. now rewrite IH.
Qed.

Section Stitch.

Variables (xforw xback : ndarray) (nf nb : nat).
Hypothesis Hsf : shape xforw = [3; nf].
Hypothesis Hwf : wf xforw.
Hypothesis Hsb : shape xback = [3; nb].
Hypothesis Hwb : wf xback.

(** The stitched sequence: the points of the inward half-line in
    reverse order, then the points of the outward half-line. *)
Let pts : list (list float) := rev (cols xback) ++ cols xforw.

Lemma pts_widths : Forall (fun p => length p = 3) pts.
Proof.
  apply Forall_app; split.
  - apply Forall_rev. eapply cols_widths; eauto.
  - eapply cols_widths; eauto.
Qed.

Lemma pts_length : length pts = nb + nf.
Proof.
  unfold pts. rewrite length_app, length_rev.
  now rewrite (cols_length Hsb Hwb), (cols_length Hsf Hwf).
Qed.

Lemma stitch_streamlines :
  stitch xforw xback = Ok (NdArray [nb + nf; 3] (concat pts)).
Proof.
  unfold stitch. rewrite (flip_axis1 Hsb Hwb).
  set (xb' := NdArray [3; nb] (concat (map (@rev float) (rows xback)))).
  assert (Hl : length (map (@rev float) (rows xback)) = 3)
    by (rewrite length_map; eapply rows_length; eauto).
  assert (Hr : Forall (fun row => length row = nb) (map (@rev float) (rows xback))).
  { apply Forall_map. eapply Forall_impl; [|eapply rows_widths; eauto].
    intros row Hrow; simpl. now rewrite length_rev. }
  assert (Hw' : wf xb') by (apply wf_of_rows; assumption).
  assert (Hs' : shape xb' = [3; nb]) by reflexivity.
  unfold row_stack, atleast_2d.
  rewrite (shape_T _ Hs'), (shape_T _ Hsf). cbn [shape].
  rewrite (shape_T _ Hs'), (shape_T _ Hsf).
  unfold shape_eqb. destruct (list_eq_dec Nat.eq_dec [3] [3]) as [_|ne];
    [|now elim ne].
  rewrite (data_T Hs' Hw'), (data_T Hsf Hwf).
  rewrite <- (cols_crosswise Hs' Hw'), <- (cols_crosswise Hsf Hwf).
  unfold xb'. rewrite (cols_flip Hsb Hwb).
  unfold pts. now rewrite concat_app.
Qed.

Lemma rows_stitched : rows (NdArray [nb + nf; 3] (concat pts)) = pts.
Proof. apply rows_of_rows; [apply pts_length | apply pts_widths]. Qed.

Lemma wf_stitched : wf (NdArray [nb + nf; 3] (concat pts)).
Proof. apply wf_of_rows; [apply pts_length | apply pts_widths]. Qed.

Lemma stitched_col k :
  k < 3 ->
  getitem_col (NdArray [nb + nf; 3] (concat pts)) k
  = Ok (NdArray [nb + nf] (flat_map (pick k) pts)).
Proof.
  intros Hk.
  rewrite (@getitem_col_rows (NdArray [nb + nf; 3] (concat pts)) (nb + nf) 3
             eq_refl wf_stitched k Hk).
  now rewrite rows_stitched.
Qed.

End Stitch.

Section TraceSeed.

Variables (Time : Type) (R : float) (self : PythonTracer) (output : Output Time).
Variables (seed xforw xback : ndarray).
Hypothesis Hint : integrates self output seed xforw xback.

(** What the loop body computes when the integrator answers with two
    streamlines: the outcome, every attribute of the Field Line, and
    the two calls made. *)
Lemma trace_seed_integrates :
  exists fline,
    outcome (trace_seed R self output seed) = Ok fline /\
    calls (trace_seed R self output seed)
    = [Call 1 seed (rtol self) (atol self); Call (-1) seed (rtol self) (atol self)] /\
    fline_points fline = map (to_metres R) (rev (cols xback) ++ cols xforw) /\
    frame fline = HeliographicCarrington /\
    obstime fline = dtime output /\
    representation_type fline = "cartesian"%string /\
    _output fline = output /\
    _expansion_factor fline = None.
Proof.
  destruct Hint as (Hf & Hb & Hsf & Hsb).
  apply is_streamline_inv in Hsf as (nf & Hsf & Hwf).
  apply is_streamline_inv in Hsb as (nb & Hsb & Hwb).
  eexists. unfold outcome, calls, trace_seed, bind, integrate, lift, ret.
  cbn [app]. rewrite Hf, Hb.
  rewrite (stitch_streamlines Hsf Hwf Hsb Hwb).
  rewrite !(stitched_col Hsf Hwf Hsb Hwb) by lia.
  cbn [fst snd]. split; [reflexivity|]. split; [reflexivity|].
  split; [|repeat split].
  unfold fline_points, mul_scalar; cbn [x y z data].
  unfold to_metres. rewrite zip3_map, zip3_picks; [reflexivity|].
  eapply pts_widths; eauto.
Qed.

End TraceSeed.

End StitchFacts.

(** ** The loop of [trace] *)

Module LoopFacts.

Import Tracing ChunkFacts NpFacts LogFacts StitchFacts.
Local Open Scope py_scope.

Lemma Forall2_nth_error {A B} (P : A -> B -> Prop) l1 l2 i a :
  Forall2 P l1 l2 -> nth_error l1 i = Some a ->
  exists b, nth_error l2 i = Some b /\ P a b.
Proof.
  intros H; revert i. induction H as [|a' b' l1 l2 Hab _ IH]; intros [|i] E;
    simpl in *; try discriminate.
  - injection E as <-. eauto.
  - eauto.
Qed.

Lemma Forall2_exists {A B} (P : A -> B -> Prop) l1 :
  (forall a, In a l1 -> exists b, P a b) -> exists l2, Forall2 P l1 l2.
Proof.
  induction l1 as [|a l1 IH]; intros H.
  - exists []. constructor.
  - destruct (H a (or_introl eq_refl)) as [b Hb].
    destruct IH as [l2 Hl2]; [intros; apply H; now right|].
    exists (b :: l2). now constructor.
Qed.

Lemma is_n_by_3_true seeds :
  is_n_by_3 seeds = true <-> exists n, shape seeds = [n; 3].
Proof.
  unfold is_n_by_3.
  destruct (shape seeds) as [|n [|[|[|[|[|]]]] [|]]]; split;
    try discriminate; try (intros [k H]; discriminate H); eauto.
Qed.

Lemma is_n_by_3_false seeds :
  is_n_by_3 seeds = false <->
  (ndim seeds <> 2 \/ nth_error (shape seeds) 1 <> Some 3).
Proof.
  unfold is_n_by_3, ndim.
  destruct (shape seeds) as [|n [|[|[|[|[|]]]] [|]]]; simpl; split;
    try discriminate; try (intros _; left; discriminate);
    try (intros _; right; discriminate); try reflexivity.
  intros [H|H]; now elim H.
Qed.

Lemma validate_n_by_3 seeds :
  is_n_by_3 seeds = true -> validate_seeds_shape seeds = Ok tt.
Proof.
  unfold is_n_by_3, validate_seeds_shape, ndim.
  destruct (shape seeds) as [|n [|[|[|[|[|]]]] [|]]]; try discriminate.
  reflexivity.
Qed.

Lemma validate_not_n_by_3 seeds :
  is_n_by_3 seeds = false ->
  exists msg, validate_seeds_shape seeds = Raise (ValueError msg).
Proof.
  unfold is_n_by_3, validate_seeds_shape, ndim.
  destruct (shape seeds) as [|n [|[|[|[|[|]]]] [|]]]; try discriminate;
    intros _; cbn [length Nat.eqb negb nth]; eexists; reflexivity.
Qed.

(** Iterating over an array and indexing it give the same sub-arrays. *)
Lemma iter_getitem a d0 rest :
  shape a = d0 :: rest ->
  exists subs, iter a = Ok subs /\ length subs = d0 /\
               forall i s, nth_error subs i = Some s <-> getitem a i = Ok s.
Proof.
  intros Hs. unfold iter, getitem. rewrite Hs. eexists. split; [reflexivity|].
  split; [now rewrite length_map, chunks_length|].
  intros i s. destruct (Nat.ltb_spec i d0) as [Hi|Hi].
  - rewrite nth_error_map, chunks_nth_error by assumption. simpl.
    split; intros E; injection E as <-; reflexivity.
  - split; [|discriminate]. intros E.
    assert (nth_error (map (NdArray rest) (chunks (size rest) d0 (data a))) i <> None)
      by congruence.
    apply nth_error_Some in H. rewrite length_map, chunks_length in H. lia.
Qed.

Section Loop.

Variables (Time : Type) (R : float) (self : PythonTracer) (output : Output Time).

(** The Field Line that the loop body gives for [seed]. *)
Let traced (seed : ndarray) (fline : FieldLine Time) : Prop :=
  outcome (trace_seed R self output seed) = Ok fline.

(** The loop returns the list it was given followed by one Field Line
    per seed, in the order of the seeds, and it returns exactly when
    the body returns for every seed. *)
Lemma trace_loop_outcome seeds : forall flines out,
  outcome (trace_loop R self output seeds flines) = Ok out <->
  exists fls, out = flines ++ fls /\ Forall2 traced seeds fls.
Proof.
  induction seeds as [|seed seeds IH]; intros flines out; simpl.
  - unfold outcome, ret; simpl. split.
    + intros E; injection E as <-. exists []. split; [now rewrite app_nil_r|constructor].
    + intros (fls & -> & H). inversion H. now rewrite app_nil_r.
  - rewrite outcome_bind;
      [|apply framed_trace_seed | intros; apply framed_trace_loop].
    destruct (outcome (trace_seed R self output seed)) as [fl|e] eqn:E.
    + rewrite IH. split.
      * intros (fls & -> & H). exists (fl :: fls).
        split; [now rewrite <- app_assoc|]. now constructor.
      * intros (fls & -> & H). inversion H as [|? fl' ? fls' Hfl Hrest]; subst.
        unfold traced in Hfl. rewrite E in Hfl. injection Hfl as <-.
        exists fls'. split; [now rewrite <- app_assoc|assumption].
    + split; [discriminate|]. intros (fls & _ & H).
      inversion H as [|? fl' ? fls' Hfl Hrest]; subst.
      unfold traced in Hfl. congruence.
Qed.

(** On a batch of shape (n, 3), [trace] is its loop over the seeds. *)
Lemma trace_batch seeds d0 rest subs log :
  is_n_by_3 seeds = true ->
  shape seeds = d0 :: rest ->
  iter seeds = Ok subs ->
  trace R self seeds output log = trace_loop R self output subs [] log.
Proof.
  intros H3 Hs Hi. unfold trace.
  assert (Ha : atleast_2d seeds = seeds).
  { unfold atleast_2d. unfold is_n_by_3 in H3.
    destruct (shape seeds) as [|? [|? ?]]; try discriminate; reflexivity. }
  rewrite Ha. unfold bind, lift.
  rewrite (validate_n_by_3 _ H3). cbv iota. rewrite Hi. reflexivity.
Qed.

(** A single seed of shape (3,): [trace] runs the loop body once. *)
Lemma trace_single seed log :
  shape seed = [3] -> wf seed ->
  trace R self seed output log = trace_loop R self output [seed] [] log.
Proof.
  intros Hs Hw. unfold trace, atleast_2d. rewrite Hs.
  unfold bind, lift, iter. cbn [validate_seeds_shape ndim shape data length
    Nat.eqb negb nth size fold_right Nat.mul Nat.add chunks map].
  unfold wf in Hw. rewrite Hs in Hw. cbn in Hw.
  rewrite firstn_all2 by lia.
  destruct seed as [sh d]; simpl in *; subst sh. reflexivity.
Qed.

(** [trace] sees its batch through [atleast_2d] only. *)
Lemma trace_atleast_2d seeds :
  trace R self (atleast_2d seeds) output = trace R self seeds output.
Proof. unfold trace. now rewrite atleast_2d_idem. Qed.

Lemma outcome_trace_single seed fline :
  shape seed = [3] -> wf seed ->
  outcome (trace R self seed output) = Ok [fline] <-> traced seed fline.
Proof.
  intros Hs Hw. unfold outcome at 1. rewrite (trace_single _ Hs Hw).
  fold (outcome (trace_loop R self output [seed] [])).
  rewrite trace_loop_outcome. split.
  - intros (fls & E & H). inversion H as [|? fl ? ? Hfl Hnil]; subst.
    inversion Hnil; subst. simpl in E. now injection E as ->.
  - intros H. exists [fline]. split; [reflexivity|]. repeat constructor. exact H.
Qed.

End Loop.

End LoopFacts.

(** ** The properties of [trace] *)

Module TraceSpec.

Import Tracing Status ChunkFacts NpFacts LogFacts StitchFacts LoopFacts.
Local Open Scope py_scope.

(** The literal [1e-4] is 1/10000 rounded to binary64. *)
Lemma lit_1e_4_value : lit_1e_4 = div (of_Z 1 0) (of_Z 10000 0).
Proof. reflexivity. Qed.

(** The sample integrator answers every seed with two streamlines. *)
Lemma radial_integrates seed :
  exists xforw xback, integrates Sample.tracer Sample.output seed xforw xback.
Proof. do 2 eexists. repeat split. Qed.

(** C1.  For a seed batch of shape (n, 3) whose seeds the integrator can
    all trace, [trace] returns a list of exactly n Field Lines, and the
    i-th Field Line of the list is the one traced from the i-th seed
    [seeds[i]]: its points are the points that the integrator returns for
    [seeds[i]], the inward ones in reverse order followed by the outward
    ones, times [R_sun]; it carries the epoch and the field solution of
    the call, and it is what the loop body returns for [seeds[i]]. *)
Theorem trace_preserves_order Time R self (output : Output Time) seeds n log :
  shape seeds = [n; 3] ->
  (forall i seed, getitem seeds i = Ok seed ->
                  exists xforw xback, integrates self output seed xforw xback) ->
  exists flines log',
    trace R self seeds output log = (Ok flines, log') /\
    length flines = n /\
    forall i, i < n ->
      exists seed fline xforw xback,
        getitem seeds i = Ok seed /\
        nth_error flines i = Some fline /\
        integrates self output seed xforw xback /\
        fline_points fline = map (to_metres R) (rev (cols xback) ++ cols xforw) /\
        obstime fline = dtime output /\
        _output fline = output /\
        outcome (trace_seed R self output seed) = Ok fline.
Proof.
  intros Hs Hint.
  assert (H3 : is_n_by_3 seeds = true) by (unfold is_n_by_3; now rewrite Hs).
  destruct (iter_getitem _ Hs) as (subs & Hi & Hlen & Hsub).
  destruct (@Forall2_exists _ _
              (fun seed fl => outcome (trace_seed R self output seed) = Ok fl) subs)
    as [fls Hfls].
  { intros seed Hin. apply In_nth_error in Hin as [i Hi'].
    apply Hsub in Hi'. destruct (Hint _ _ Hi') as (xf & xb & Hxx).
    destruct (trace_seed_integrates R Hxx) as (fl & Hfl & _). eauto. }
  exists fls, (log ++ calls (trace R self seeds output)).
  split; [|split].
  - rewrite (framed_trace R self output seeds log). f_equal.
    unfold outcome. rewrite (trace_batch R self output _ [] H3 Hs Hi).
    apply (trace_loop_outcome R self output subs [] fls).
    exists fls. split; [reflexivity | exact Hfls].
  - rewrite <- (Forall2_length Hfls). exact Hlen.
  - intros i Hi'. rewrite <- Hlen in Hi'.
    destruct (nth_error subs i) as [seed|] eqn:E;
      [|apply nth_error_None in E; lia].
    destruct (Forall2_nth_error _ Hfls E) as (fl & Hn & Hfl).
    apply Hsub in E. destruct (Hint _ _ E) as (xf & xb & Hxx).
    destruct (trace_seed_integrates R Hxx)
      as (fl' & Hfl' & _ & Hpts & _ & Hobs & _ & Hout & _).
    rewrite Hfl in Hfl'. injection Hfl' as <-.
    exists seed, fl, xf, xb. repeat (split; [assumption|]). exact Hfl.
Qed.

Lemma trace_preserves_order_witness :
  shape Sample.batch_ab = [2; 3] /\
  (forall i seed, getitem Sample.batch_ab i = Ok seed ->
                  exists xforw xback,
                    integrates Sample.tracer Sample.output seed xforw xback) /\
  exists flines log',
    trace Sample.R_sun Sample.tracer Sample.batch_ab Sample.output [] = (Ok flines, log') /\
    length flines = 2 /\
    forall i, i < 2 ->
      exists seed fline xforw xback,
        getitem Sample.batch_ab i = Ok seed /\
        nth_error flines i = Some fline /\
        integrates Sample.tracer Sample.output seed xforw xback /\
        fline_points fline
        = map (to_metres Sample.R_sun) (rev (cols xback) ++ cols xforw) /\
        obstime fline = dtime Sample.output /\
        _output fline = Sample.output /\
        outcome (trace_seed Sample.R_sun Sample.tracer Sample.output seed) = Ok fline.
Proof.
  split; [reflexivity|]. split; [intros i seed _; apply radial_integrates|].
  apply (@trace_preserves_order nat Sample.R_sun Sample.tracer Sample.output
           Sample.batch_ab 2 []).
  - reflexivity.
  - intros i seed _. apply radial_integrates.
Defined.

(** C7.  When the integrator returns the streamlines [xforw] (outward)
    and [xback] (inward) for a seed, the stitched array [xout] has as rows
    the points of [xback] in reverse order followed by the points of
    [xforw], and the Field Line holds that same sequence, every
    coordinate multiplied by [R_sun]: it starts at the last point of the
    inward half-line and ends at the last point of the outward one. *)
Theorem stitched_points_order Time R self (output : Output Time) seed xforw xback :
  integrates self output seed xforw xback ->
  exists xout fline,
    stitch xforw xback = Ok xout /\
    rows xout = rev (cols xback) ++ cols xforw /\
    outcome (trace_seed R self output seed) = Ok fline /\
    fline_points fline = map (to_metres R) (rev (cols xback) ++ cols xforw) /\
    (forall tb pb, cols xback = tb ++ [pb] ->
                   hd_error (fline_points fline) = Some (to_metres R pb)) /\
    (forall tf pf, cols xforw = tf ++ [pf] ->
                   hd_error (rev (fline_points fline)) = Some (to_metres R pf)).
Proof.
  intros Hint.
  destruct (trace_seed_integrates R Hint) as (fl & Hfl & _ & Hpts & _).
  destruct Hint as (_ & _ & Hsf & Hsb).
  apply is_streamline_inv in Hsf as (nf & Hsf & Hwf).
  apply is_streamline_inv in Hsb as (nb & Hsb & Hwb).
  eexists; exists fl. split; [apply (stitch_streamlines Hsf Hwf Hsb Hwb)|].
  split; [apply (rows_stitched Hsf Hwf Hsb Hwb)|].
  split; [exact Hfl|]. split; [exact Hpts|]. split.
  - intros tb pb E. rewrite Hpts, E, rev_app_distr. reflexivity.
  - intros tf pf E. rewrite Hpts, E, <- map_rev, !rev_app_distr. reflexivity.
Qed.

Lemma stitched_points_order_witness :
  integrates Sample.tracer Sample.output Sample.seed_a
             (NdArray [3; 3] [Sample.one_half; Sample.two; Sample.two_half;
                              Sample.zero; Sample.zero; Sample.zero;
                              Sample.zero; Sample.zero; Sample.zero])
             (NdArray [3; 2] [Sample.one_half; Sample.one;
                              Sample.zero; Sample.zero;
                              Sample.zero; Sample.zero]) /\
  exists fline,
    outcome (trace_seed Sample.R_sun Sample.tracer Sample.output Sample.seed_a) = Ok fline /\
    fline_points fline
    = map (to_metres Sample.R_sun)
          [[Sample.one; Sample.zero; Sample.zero];
           [Sample.one_half; Sample.zero; Sample.zero];
           [Sample.one_half; Sample.zero; Sample.zero];
           [Sample.two; Sample.zero; Sample.zero];
           [Sample.two_half; Sample.zero; Sample.zero]].
Proof.
  split; [repeat split|].
  destruct (@stitched_points_order nat Sample.R_sun Sample.tracer Sample.output
              Sample.seed_a _ _ (conj eq_refl (conj eq_refl (conj eq_refl eq_refl))))
    as (xout & fl & _ & _ & Hfl & Hpts & _).
  exists fl. split; [exact Hfl | exact Hpts].
Defined.

(** C2, as the specification states it, fails.  With the sample
    integrator both half-lines of the seed (1.5, 0, 0) start at the seed,
    and the seed is then found twice among the rows of the stitched array
    and twice among the points of the Field Line. *)
Lemma seed_sample_kept_twice :
  (exists xforw xback,
      integrates Sample.tracer Sample.output Sample.seed_a xforw xback /\
      hd_error (cols xforw) = Some (data Sample.seed_a) /\
      hd_error (cols xback) = Some (data Sample.seed_a) /\
      exists xout, stitch xforw xback = Ok xout /\
                   count_occ point_eq_dec (rows xout) (data Sample.seed_a) = 2) /\
  exists fline,
    outcome (trace_seed Sample.R_sun Sample.tracer Sample.output Sample.seed_a) = Ok fline /\
    count_occ point_eq_dec (fline_points fline)
              (to_metres Sample.R_sun (data Sample.seed_a)) = 2.
Proof.
  split.
  - do 2 eexists. split; [repeat split|].
    split; [reflexivity|]. split; [reflexivity|].
    eexists. split; [reflexivity|]. vm_compute. reflexivity.
  - eexists. split; [reflexivity|]. vm_compute. reflexivity.
Qed.

(** C2, amended.  Nothing is removed when the half-lines are stitched:
    when both start with the point [p] (the seed), the Field Line holds
    the remaining inward points in reverse order, then [p] twice in a
    row, then the remaining outward points, so it has as many points as
    the two half-lines together. *)
Theorem stitch_keeps_both_seed_samples
        Time R self (output : Output Time) seed xforw xback p tf tb :
  integrates self output seed xforw xback ->
  cols xforw = p :: tf ->
  cols xback = p :: tb ->
  exists fline,
    outcome (trace_seed R self output seed) = Ok fline /\
    fline_points fline
    = map (to_metres R) (rev tb) ++ to_metres R p :: to_metres R p :: map (to_metres R) tf /\
    length (fline_points fline) = length (cols xback) + length (cols xforw).
Proof.
  intros Hint Hf Hb.
  destruct (trace_seed_integrates R Hint) as (fl & Hfl & _ & Hpts & _).
  exists fl. split; [exact Hfl|]. split.
  - rewrite Hpts, Hf, Hb. simpl rev. rewrite <- app_assoc, map_app. reflexivity.
  - rewrite Hpts, length_map, length_app, length_rev. reflexivity.
Qed.

Lemma stitch_keeps_both_seed_samples_witness :
  exists xforw xback,
    integrates Sample.tracer Sample.output Sample.seed_a xforw xback /\
    cols xforw = data Sample.seed_a :: [[Sample.two; Sample.zero; Sample.zero];
                                        [Sample.two_half; Sample.zero; Sample.zero]] /\
    cols xback = data Sample.seed_a :: [[Sample.one; Sample.zero; Sample.zero]] /\
    exists fline,
      outcome (trace_seed Sample.R_sun Sample.tracer Sample.output Sample.seed_a) = Ok fline /\
      length (fline_points fline) = 5.
Proof.
  do 2 eexists. split; [repeat split|]. split; [reflexivity|]. split; [reflexivity|].
  destruct (@stitch_keeps_both_seed_samples nat Sample.R_sun Sample.tracer Sample.output
              Sample.seed_a _ _ (data Sample.seed_a) _ _
              (conj eq_refl (conj eq_refl (conj eq_refl eq_refl))) eq_refl eq_refl)
    as (fl & Hfl & _ & Hlen).
  exists fl. split; [exact Hfl | exact Hlen].
Defined.

(** C3.  [validate_seeds_shape] raises exactly when the batch is not of
    rank two or its second dimension is not 3, the exception is always
    the ValueError of the source (the shape error of the specification),
    and a batch of shape (n, 3) passes. *)
Theorem validate_seeds_shape_spec seeds :
  ((exists msg, validate_seeds_shape seeds = Raise (ValueError msg)) <->
   (ndim seeds <> 2 \/ nth_error (shape seeds) 1 <> Some 3)) /\
  (validate_seeds_shape seeds = Ok tt <-> exists n, shape seeds = [n; 3]) /\
  (forall e, validate_seeds_shape seeds = Raise e -> exn_class e = "ValueError"%string).
Proof.
  destruct (is_n_by_3 seeds) eqn:E.
  - rewrite (validate_n_by_3 _ E).
    split; [split|split; [split|]].
    + intros [msg H]; discriminate H.
    + intros H. apply is_n_by_3_false in H. congruence.
    + intros _. now apply is_n_by_3_true.
    + reflexivity.
    + discriminate.
  - destruct (validate_not_n_by_3 _ E) as [msg ->].
    split; [split|split; [split|]].
    + intros _. now apply is_n_by_3_false.
    + eauto.
    + discriminate.
    + intros H. apply is_n_by_3_true in H. congruence.
    + intros e H; injection H as <-. reflexivity.
Qed.

(** C4, as the specification states it, fails.  The (1, 3) batch whose
    first coordinate is NaN passes [validate_seeds_shape], and [trace]
    hands its seed to the integrator, in both directions, and returns. *)
Lemma nan_seed_reaches_integrator :
  has_nonfinite Sample.batch_nan = true /\
  validate_seeds_shape Sample.batch_nan = Ok tt /\
  calls (trace Sample.R_sun Sample.tracer Sample.batch_nan Sample.output)
  = [Call 1 Sample.seed_nan lit_1e_4 lit_1e_4;
     Call (-1) Sample.seed_nan lit_1e_4 lit_1e_4] /\
  is_ok (outcome (trace Sample.R_sun Sample.tracer Sample.batch_nan Sample.output)) = true.
Proof. repeat split. Qed.

(** C4, amended.  Validation looks at the shape only: a batch of shape
    (n, 3) that holds a NaN or an infinity passes it without error, and
    [trace] then starts integrating, its first integrator call being the
    outward one on the first seed [seeds[0]]. *)
Theorem nonfinite_seeds_pass_validation Time R self (output : Output Time) seeds n :
  shape seeds = [n; 3] ->
  wf seeds ->
  has_nonfinite seeds = true ->
  validate_seeds_shape seeds = Ok tt /\
  exists seed0 rest,
    getitem seeds 0 = Ok seed0 /\
    calls (trace R self seeds output) = Call 1 seed0 (rtol self) (atol self) :: rest.
Proof.
  intros Hs Hw Hnf.
  assert (H3 : is_n_by_3 seeds = true) by (unfold is_n_by_3; now rewrite Hs).
  split; [now apply validate_n_by_3|].
  destruct (iter_getitem _ Hs) as (subs & Hi & Hlen & Hsub).
  destruct subs as [|seed0 subs].
  { simpl in Hlen; subst n. unfold wf in Hw. rewrite Hs in Hw. cbn in Hw.
    unfold has_nonfinite in Hnf. destruct (data seeds); discriminate. }
  exists seed0. eexists. split; [apply Hsub; reflexivity|].
  unfold calls. rewrite (trace_batch R self output _ [] H3 Hs Hi).
  fold (calls (trace_loop R self output (seed0 :: subs) [])).
  cbn [trace_loop]. rewrite calls_bind;
    [|apply framed_trace_seed | intros; apply framed_trace_loop].
  unfold trace_seed at 1. rewrite calls_bind; [|auto with framed|].
  - reflexivity.
  - intros v. auto 20 with framed.
Qed.

Lemma nonfinite_seeds_pass_validation_witness :
  shape Sample.batch_nan = [1; 3] /\
  wf Sample.batch_nan /\
  has_nonfinite Sample.batch_nan = true /\
  validate_seeds_shape Sample.batch_nan = Ok tt /\
  exists seed0 rest,
    getitem Sample.batch_nan 0 = Ok seed0 /\
    calls (trace Sample.R_sun Sample.tracer Sample.batch_nan Sample.output)
    = Call 1 seed0 (rtol Sample.tracer) (atol Sample.tracer) :: rest.
Proof.
  split; [reflexivity|]. split; [reflexivity|]. split; [reflexivity|].
  apply (@nonfinite_seeds_pass_validation nat Sample.R_sun Sample.tracer Sample.output
           Sample.batch_nan 1); reflexivity.
Defined.

(** C8, as the specification states it, fails.  The specification counts
    a batch with a non-finite coordinate as malformed input.  The batch
    of shape (2, 3) whose second seed has an infinite coordinate is not
    rejected: [trace] returns two Field Lines and has called the
    integrator four times, twice on the seed with the infinity. *)
Lemma nonfinite_batch_not_rejected :
  has_nonfinite Sample.batch_inf = true /\
  (exists flines,
      outcome (trace Sample.R_sun Sample.tracer Sample.batch_inf Sample.output)
      = Ok flines /\ length flines = 2) /\
  calls (trace Sample.R_sun Sample.tracer Sample.batch_inf Sample.output)
  = [Call 1 Sample.seed_a lit_1e_4 lit_1e_4; Call (-1) Sample.seed_a lit_1e_4 lit_1e_4;
     Call 1 Sample.seed_inf lit_1e_4 lit_1e_4; Call (-1) Sample.seed_inf lit_1e_4 lit_1e_4].
Proof.
  split; [reflexivity|]. split; [|reflexivity].
  eexists. split; reflexivity.
Qed.

(** C8, amended.  When the batch is malformed in shape, that is, once made
    at least 2-d it is not of shape (n, 3), [trace] raises the exception
    of [validate_seeds_shape] and the log of integrator calls is the one
    it started with: the whole batch is rejected and no integration was
    begun for any seed. *)
Theorem trace_rejects_before_integration Time R self (output : Output Time) seeds log :
  is_n_by_3 (atleast_2d seeds) = false ->
  exists msg,
    validate_seeds_shape (atleast_2d seeds) = Raise (ValueError msg) /\
    trace R self seeds output log = (Raise (ValueError msg), log) /\
    calls (trace R self seeds output) = [].
Proof.
  intros H. destruct (validate_not_n_by_3 _ H) as [msg Hmsg].
  exists msg. split; [exact Hmsg|].
  unfold calls, trace, bind, lift. rewrite Hmsg. split; reflexivity.
Qed.

Lemma trace_rejects_before_integration_witness :
  is_n_by_3 (atleast_2d Sample.batch_22) = false /\
  exists msg,
    validate_seeds_shape (atleast_2d Sample.batch_22) = Raise (ValueError msg) /\
    trace Sample.R_sun Sample.tracer Sample.batch_22 Sample.output []
    = (Raise (ValueError msg), []) /\
    calls (trace Sample.R_sun Sample.tracer Sample.batch_22 Sample.output) = [].
Proof.
  split; [reflexivity|].
  apply (@trace_rejects_before_integration nat Sample.R_sun Sample.tracer Sample.output
           Sample.batch_22 []); reflexivity.
Defined.

(** C5, as the specification states it, fails.  The integrators
    [Sample.limited] and [Sample.converged] return the same points; the
    outward half-line of the first stopped at the step limit, both
    half-lines of the second reached a boundary.  [trace] builds the same
    Field Line from both, so no observation of the Field Line tells the
    non-converged line from the converged one. *)
Lemma no_nonconverged_marker :
  ~ exists marker : FieldLine nat -> bool,
      forall i, In i [Sample.limited; Sample.converged] ->
        forall fline,
          outcome (trace_seed Sample.R_sun Sample.tracer (as_output 0 i) Sample.seed_a)
          = Ok fline ->
          marker fline = hits_max_steps i Sample.tracer Sample.seed_a.
Proof.
  intros [marker H].
  destruct (@trace_seed_integrates nat Sample.R_sun Sample.tracer
              (as_output 0 Sample.limited) Sample.seed_a _ _
              (conj eq_refl (conj eq_refl (conj eq_refl eq_refl))))
    as (fline & Hfline & _).
  pose proof (H Sample.limited (or_introl eq_refl) fline Hfline) as H1.
  pose proof (H Sample.converged (or_intror (or_introl eq_refl)) fline Hfline) as H2.
  rewrite H1 in H2. discriminate H2.
Qed.

(** C5, amended.  Whatever status the integrator reports, [trace] builds
    the Field Line from the points alone and raises nothing: the Field
    Line holds the stitched coordinates, the frame, the epoch, the
    representation, the reference to the field solution and an unset
    expansion factor, and an integrator that returns the same points with
    other statuses gives the same Field Line.  No attribute records that
    a half-line stopped at the step limit. *)
Theorem field_line_ignores_status
        Time (t : Time) R self (i : Integrator) seed xforw xback :
  integrates self (as_output t i) seed xforw xback ->
  exists fline,
    outcome (trace_seed R self (as_output t i) seed) = Ok fline /\
    fline_points fline = map (to_metres R) (rev (cols xback) ++ cols xforw) /\
    frame fline = HeliographicCarrington /\
    obstime fline = t /\
    representation_type fline = "cartesian"%string /\
    _output fline = as_output t i /\
    _expansion_factor fline = None /\
    forall i', points_of i' = points_of i ->
               outcome (trace_seed R self (as_output t i') seed) = Ok fline.
Proof.
  intros Hint.
  destruct (trace_seed_integrates R Hint)
    as (fl & Hfl & _ & Hpts & Hfr & Hobs & Hrep & Hout & Hexp).
  exists fl. repeat (split; [assumption|]).
  intros i' E. unfold as_output. rewrite E. exact Hfl.
Qed.

Lemma field_line_ignores_status_witness :
  hits_max_steps Sample.limited Sample.tracer Sample.seed_a = true /\
  hits_max_steps Sample.converged Sample.tracer Sample.seed_a = false /\
  exists fline,
    outcome (trace_seed Sample.R_sun Sample.tracer (as_output 0 Sample.limited)
                        Sample.seed_a) = Ok fline /\
    _expansion_factor fline = None /\
    outcome (trace_seed Sample.R_sun Sample.tracer (as_output 0 Sample.converged)
                        Sample.seed_a) = Ok fline.
Proof.
  split; [reflexivity|]. split; [reflexivity|].
  destruct (@field_line_ignores_status nat 0 Sample.R_sun Sample.tracer Sample.limited
              Sample.seed_a _ _ (conj eq_refl (conj eq_refl (conj eq_refl eq_refl))))
    as (fl & Hfl & _ & _ & _ & _ & _ & Hexp & Hsame).
  exists fl. split; [exact Hfl|]. split; [exact Hexp|].
  apply Hsame. reflexivity.
Defined.

(** C6, as the specification states it, fails.  A negative absolute
    tolerance and a NaN relative tolerance are stored without an error,
    and the keyword [max_steps] is not accepted at all. *)
Lemma invalid_tolerances_accepted :
  __init__ [] [("atol"%string, Sample.minus_one); ("rtol"%string, nan)]
  = Ok {| atol := Sample.minus_one; rtol := nan |} /\
  is_ok (__init__ [] [("max_steps"%string, of_Z 2000 0)]) = false.
Proof. split; reflexivity. Qed.

(** C6, amended.  The configuration of [PythonTracer] has two options,
    the absolute and the relative tolerance, each 1e-4 when left out;
    [__init__] stores the values it is given, whatever they are, and
    never fails on them; there is no [max_steps] option, and a call that
    passes one is a TypeError. *)
Theorem init_stores_tolerances (a r : float) :
  __init__ [] [("atol"%string, a); ("rtol"%string, r)] = Ok {| atol := a; rtol := r |} /\
  __init__ [a; r] [] = Ok {| atol := a; rtol := r |} /\
  __init__ [a] [] = Ok {| atol := a; rtol := lit_1e_4 |} /\
  __init__ [] [("rtol"%string, r)] = Ok {| atol := lit_1e_4; rtol := r |} /\
  __init__ [] [] = Ok {| atol := lit_1e_4; rtol := lit_1e_4 |} /\
  forall args kwargs v,
    exists msg, __init__ args (("max_steps"%string, v) :: kwargs) = Raise (TypeError msg).
Proof.
  repeat (split; [reflexivity|]).
  intros args kwargs v. unfold __init__. cbn [check_keywords String.eqb].
  eexists; reflexivity.
Qed.

(** C9.  For a batch of shape (n, 3), let [subs] be its n seeds in
    order ([subs[i]] is [seeds[i]]).  Tracing the batch returns the list
    [flines] exactly when tracing every seed alone, as the singleton
    batch [atleast_2d seed] of shape (1, 3), returns the one-element list
    holding the Field Line at the same position of [flines]: the trace of
    the batch is the concatenation of the traces of its singleton
    sub-batches.  Tracing the seed given as a vector is the same
    computation. *)
Theorem trace_batch_is_concatenation Time R self (output : Output Time) seeds n :
  shape seeds = [n; 3] ->
  wf seeds ->
  exists subs,
    iter seeds = Ok subs /\
    length subs = n /\
    (forall i seed, nth_error subs i = Some seed <-> getitem seeds i = Ok seed) /\
    (forall seed, In seed subs ->
                  shape (atleast_2d seed) = [1; 3] /\
                  trace R self (atleast_2d seed) output = trace R self seed output) /\
    forall flines,
      outcome (trace R self seeds output) = Ok flines <->
      Forall2 (fun seed fline =>
                 outcome (trace R self (atleast_2d seed) output) = Ok [fline])
              subs flines.
Proof.
  intros Hs Hw.
  assert (H3 : is_n_by_3 seeds = true) by (unfold is_n_by_3; now rewrite Hs).
  destruct (iter_getitem _ Hs) as (subs & Hi & Hlen & Hsub).
  exists subs. repeat (split; [assumption|]).
  assert (Hsubs : Forall (fun seed => shape seed = [3] /\ wf seed) subs).
  { unfold iter in Hi. rewrite Hs in Hi. injection Hi as <-.
    apply Forall_map. cbn [size fold_right Nat.mul].
    eapply Forall_impl; [|apply (chunks_widths 3 n)].
    - intros row Hrow. split; [reflexivity|]. unfold wf; simpl. rewrite Hrow.
      unfold size; simpl. reflexivity.
    - unfold wf in Hw. rewrite Hs in Hw. unfold size in Hw; simpl in Hw. lia. }
  split.
  { intros seed Hin. split; [|apply trace_atleast_2d].
    rewrite Forall_forall in Hsubs. destruct (Hsubs _ Hin) as [Hsh _].
    unfold atleast_2d. now rewrite Hsh. }
  intros flines. unfold outcome at 1.
  rewrite (trace_batch R self output _ [] H3 Hs Hi).
  fold (outcome (trace_loop R self output subs [])).
  rewrite trace_loop_outcome. simpl app.
  assert (Heq : forall fls,
             Forall2 (fun seed fl => outcome (trace_seed R self output seed) = Ok fl)
                     subs fls <->
             Forall2 (fun seed fl =>
                        outcome (trace R self (atleast_2d seed) output) = Ok [fl])
                     subs fls).
  { clear - Hsubs. induction Hsubs as [|seed subs [Hsh Hwf] _ IH]; intros fls.
    - split; inversion 1; constructor.
    - split; inversion 1; subst; constructor;
        try (now apply IH);
        rewrite ?trace_atleast_2d in *;
        now apply (outcome_trace_single R self output). }
  split.
  - intros (fls & -> & H). now apply Heq.
  - intros H. exists flines. split; [reflexivity|]. now apply Heq.
Qed.

Lemma trace_batch_is_concatenation_witness :
  shape Sample.batch_ab = [2; 3] /\
  wf Sample.batch_ab /\
  exists subs,
    iter Sample.batch_ab = Ok subs /\
    length subs = 2 /\
    forall flines,
      outcome (trace Sample.R_sun Sample.tracer Sample.batch_ab Sample.output) = Ok flines <->
      Forall2 (fun seed fline =>
                 outcome (trace Sample.R_sun Sample.tracer (atleast_2d seed) Sample.output)
                 = Ok [fline])
              subs flines.
Proof.
  split; [reflexivity|]. split; [reflexivity|].
  destruct (@trace_batch_is_concatenation nat Sample.R_sun Sample.tracer Sample.output
              Sample.batch_ab 2 eq_refl eq_refl) as (subs & Hi & Hlen & _ & _ & H).
  exists subs. split; [exact Hi|]. split; [exact Hlen | exact H].
Defined.

(** C10.  A single seed given as a vector of 3 coordinates is made a
    (1, 3) batch by [atleast_2d] before the shape is validated, so that
    [trace] accepts it, although [validate_seeds_shape] applied to the
    vector itself raises; when the integrator can trace the seed, [trace]
    returns a list of one Field Line, the one of that seed. *)
Theorem single_seed_promoted Time R self (output : Output Time) seed xforw xback log :
  shape seed = [3] ->
  wf seed ->
  integrates self output seed xforw xback ->
  atleast_2d seed = NdArray [1; 3] (data seed) /\
  validate_seeds_shape (atleast_2d seed) = Ok tt /\
  is_ok (validate_seeds_shape seed) = false /\
  exists fline log',
    trace R self seed output log = (Ok [fline], log') /\
    outcome (trace_seed R self output seed) = Ok fline.
Proof.
  intros Hs Hw Hint.
  split; [unfold atleast_2d; now rewrite Hs|].
  split; [unfold atleast_2d; now rewrite Hs|].
  split; [unfold validate_seeds_shape, ndim; now rewrite Hs|].
  destruct (trace_seed_integrates R Hint) as (fl & Hfl & _).
  exists fl, (log ++ calls (trace R self seed output)).
  split; [|exact Hfl].
  rewrite (framed_trace R self output seed log). f_equal.
  now apply outcome_trace_single.
Qed.

Lemma single_seed_promoted_witness :
  shape Sample.seed_a = [3] /\
  wf Sample.seed_a /\
  (exists xforw xback,
      integrates Sample.tracer Sample.output Sample.seed_a xforw xback) /\
  exists fline log',
    trace Sample.R_sun Sample.tracer Sample.seed_a Sample.output [] = (Ok [fline], log').
Proof.
  split; [reflexivity|]. split; [reflexivity|].
  split; [apply radial_integrates|].
  destruct (@single_seed_promoted nat Sample.R_sun Sample.tracer Sample.output
              Sample.seed_a _ _ [] eq_refl eq_refl
              (conj eq_refl (conj eq_refl (conj eq_refl eq_refl))))
    as (_ & _ & _ & fl & log' & Htr & _).
  exists fl, log'. exact Htr.
Defined.

End TraceSpec.

(** * Further properties of [trace] *)

(** ** The calls made by the loop *)

Module CallFacts.

Import Tracing ChunkFacts NpFacts LogFacts StitchFacts LoopFacts.
Local Open Scope py_scope.

Section Calls.

Variables (Time : Type) (R : float) (self : PythonTracer) (output : Output Time).

(** The calls the loop body makes for [seed]. *)
Let seed_calls (seed : ndarray) : list call :=
  calls (trace_seed R self output seed).

(** The body calls the integrator outward first, and inward only when
    the outward call returned. *)
Lemma trace_seed_calls seed :
  seed_calls seed
  = Call 1 seed (rtol self) (atol self)
    :: match _integrate_one_way output 1 seed (rtol self) (atol self) with
       | Ok _ => [Call (-1) seed (rtol self) (atol self)]
       | Raise _ => []
       end.
Proof.
  unfold seed_calls, calls, trace_seed, bind, integrate, lift, ret. cbn [app].
  destruct (_integrate_one_way output 1 seed (rtol self) (atol self)) as [xf|e];
    [|reflexivity].
  destruct (_integrate_one_way output (-1) seed (rtol self) (atol self)) as [xb|e];
    [|reflexivity].
  destruct (stitch xf xb) as [xout|e]; [|reflexivity].
  destruct (getitem_col xout 0); [|reflexivity].
  destruct (getitem_col xout 1); [|reflexivity].
  destruct (getitem_col xout 2); reflexivity.
Qed.

(** While the body returns, the loop makes the calls of every seed in
    turn. *)
Lemma trace_loop_calls_ok seeds : forall flines,
  Forall (fun seed => is_ok (outcome (trace_seed R self output seed)) = true) seeds ->
  calls (trace_loop R self output seeds flines) = flat_map seed_calls seeds.
Proof.
  induction seeds as [|seed seeds IH]; intros flines H; [reflexivity|].
  inversion H as [|? ? Hseed Hrest]; subst. cbn [trace_loop flat_map].
  rewrite calls_bind; [|apply framed_trace_seed | intros; apply framed_trace_loop].
  destruct (outcome (trace_seed R self output seed)); [|discriminate].
  now rewrite IH.
Qed.

(** The loop stops at the first seed for which the body raises. *)
Lemma trace_loop_stops pre seed post e : forall flines,
  Forall (fun s => is_ok (outcome (trace_seed R self output s)) = true) pre ->
  outcome (trace_seed R self output seed) = Raise e ->
  outcome (trace_loop R self output (pre ++ seed :: post) flines) = Raise e /\
  calls (trace_loop R self output (pre ++ seed :: post) flines)
  = flat_map seed_calls (pre ++ [seed]).
Proof.
  induction pre as [|s pre IH]; intros flines Hpre Hseed; cbn [app trace_loop flat_map].
  - rewrite outcome_bind, calls_bind;
      try apply framed_trace_seed; try (intros; apply framed_trace_loop).
    rewrite Hseed. split; [reflexivity|]. reflexivity.
  - inversion Hpre as [|? ? Hs Hrest]; subst.
    rewrite outcome_bind, calls_bind;
      try apply framed_trace_seed; try (intros; apply framed_trace_loop).
    destruct (outcome (trace_seed R self output s)) as [fl|]; [|discriminate].
    destruct (IH (flines ++ [fl]) Hrest Hseed) as [Ho Hc].
    split; [exact Ho|]. now rewrite Hc.
Qed.

(** Every call of the loop is a call of the body for one of the seeds. *)
Lemma trace_loop_calls_in seeds : forall flines c,
  In c (calls (trace_loop R self output seeds flines)) ->
  exists seed, In seed seeds /\ In c (seed_calls seed).
Proof.
  induction seeds as [|seed seeds IH]; intros flines c Hc.
  - destruct Hc.
  - cbn [trace_loop] in Hc.
    rewrite calls_bind in Hc;
      [|apply framed_trace_seed | intros; apply framed_trace_loop].
    apply in_app_or in Hc as [Hc|Hc].
    + exists seed. split; [now left | exact Hc].
    + destruct (outcome (trace_seed R self output seed)) as [fl|]; [|destruct Hc].
      destruct (IH _ _ Hc) as (s & Hs & Hin). exists s. split; [now right | exact Hin].
Qed.

(** What the body puts into a Field Line, whatever the integrator
    returned. *)
Lemma trace_seed_attributes seed fline :
  outcome (trace_seed R self output seed) = Ok fline ->
  frame fline = HeliographicCarrington /\
  obstime fline = dtime output /\
  representation_type fline = "cartesian"%string /\
  _output fline = output /\
  _expansion_factor fline = None /\
  shape (x fline) = shape (y fline) /\
  shape (y fline) = shape (z fline).
Proof.
  unfold outcome, trace_seed, bind, integrate, lift, ret. cbn [app].
  destruct (_integrate_one_way output 1 seed (rtol self) (atol self)) as [xf|e];
    [|discriminate].
  destruct (_integrate_one_way output (-1) seed (rtol self) (atol self)) as [xb|e];
    [|discriminate].
  destruct (stitch xf xb) as [xout|e]; [|discriminate].
  unfold getitem_col.
  destruct (shape xout) as [|d0 [|d1 rest]]; try discriminate.
  destruct (0 <? d1); [|discriminate].
  destruct (1 <? d1); [|discriminate].
  destruct (2 <? d1); [|discriminate].
  cbn [fst]. intros E; injection E as <-. repeat split.
Qed.

End Calls.

End CallFacts.

(** ** Half-lines with any number of rows *)

Module RowFacts.

Import Tracing ChunkFacts NpFacts LogFacts StitchFacts LoopFacts.
Local Open Scope py_scope.

Lemma zip3_firstn r (ls : list (list float)) :
  3 <= r ->
  Forall (fun p => length p = r) ls ->
  zip3 (flat_map (pick 0) ls) (flat_map (pick 1) ls) (flat_map (pick 2) ls)
  = map (firstn 3) ls.
Proof.
  intros Hr. induction 1 as [|p ls Hp _ IH]; simpl; [reflexivity|].
  destruct p as [|a [|b [|c p]]]; simpl in Hp; try lia.
  simpl. now rewrite IH.
Qed.

Section Rows.

Variables (xforw xback : ndarray) (r nf nb : nat).
Hypothesis Hsf : shape xforw = [r; nf].
Hypothesis Hwf : wf xforw.
Hypothesis Hsb : shape xback = [r; nb].
Hypothesis Hwb : wf xback.

Let pts : list (list float) := rev (cols xback) ++ cols xforw.

Lemma any_pts_widths : Forall (fun p => length p = r) pts.
Proof.
  apply Forall_app; split.
  - apply Forall_rev. eapply cols_widths; eauto.
  - eapply cols_widths; eauto.
Qed.

Lemma any_pts_length : length pts = nb + nf.
Proof.
  unfold pts. rewrite length_app, length_rev.
  now rewrite (cols_length Hsb Hwb), (cols_length Hsf Hwf).
Qed.

(** Two half-lines with the same number of rows are always stitched. *)
Lemma stitch_rows :
  stitch xforw xback = Ok (NdArray [nb + nf; r] (concat pts)).
Proof.
  unfold stitch. rewrite (flip_axis1 Hsb Hwb).
  set (flipped := NdArray [r; nb] (concat (map (@rev float) (rows xback)))).
  assert (Hl : length (map (@rev float) (rows xback)) = r)
    by (rewrite length_map; eapply rows_length; eauto).
  assert (Hr : Forall (fun row => length row = nb) (map (@rev float) (rows xback))).
  { apply Forall_map. eapply Forall_impl; [|eapply rows_widths; eauto].
    intros row Hrow; simpl. now rewrite length_rev. }
  assert (Hw' : wf flipped) by (apply wf_of_rows; assumption).
  assert (Hs' : shape flipped = [r; nb]) by reflexivity.
  unfold row_stack, atleast_2d.
  rewrite (shape_T _ Hs'), (shape_T _ Hsf). cbn [shape].
  rewrite (shape_T _ Hs'), (shape_T _ Hsf).
  unfold shape_eqb. destruct (list_eq_dec Nat.eq_dec [r] [r]) as [_|ne];
    [|now elim ne].
  rewrite (data_T Hs' Hw'), (data_T Hsf Hwf).
  rewrite <- (cols_crosswise Hs' Hw'), <- (cols_crosswise Hsf Hwf).
  unfold flipped. rewrite (cols_flip Hsb Hwb).
  unfold pts. now rewrite concat_app.
Qed.

Lemma rows_stitched_rows : rows (NdArray [nb + nf; r] (concat pts)) = pts.
Proof. apply rows_of_rows; [apply any_pts_length | apply any_pts_widths]. Qed.

Lemma stitched_rows_col k :
  k < r ->
  getitem_col (NdArray [nb + nf; r] (concat pts)) k
  = Ok (NdArray [nb + nf] (flat_map (pick k) pts)).
Proof.
  intros Hk.
  assert (Hw : wf (NdArray [nb + nf; r] (concat pts)))
    by (apply wf_of_rows; [apply any_pts_length | apply any_pts_widths]).
  rewrite (@getitem_col_rows (NdArray [nb + nf; r] (concat pts)) (nb + nf) r
             eq_refl Hw k Hk).
  now rewrite rows_stitched_rows.
Qed.

Lemma stitched_rows_col_out k :
  r <= k ->
  getitem_col (NdArray [nb + nf; r] (concat pts)) k
  = Raise (IndexError ("index " ++ str_nat k
                         ++ " is out of bounds for axis 1 with size " ++ str_nat r)).
Proof.
  intros Hk. unfold getitem_col. cbn [shape].
  apply Nat.ltb_ge in Hk. now rewrite Hk.
Qed.

End Rows.

End RowFacts.

(** ** Edge cases, failures and composition *)

Module TraceExtra.

Import Tracing ChunkFacts NpFacts LogFacts StitchFacts LoopFacts CallFacts RowFacts.
Local Open Scope py_scope.

(** X1.  A batch of shape (0, 3) is accepted: [trace] returns the empty
    list and never calls the integrator. *)
Theorem trace_empty_batch Time R self (output : Output Time) seeds log :
  shape seeds = [0; 3] ->
  trace R self seeds output log = (Ok [], log).
Proof.
  intros Hs.
  assert (H3 : is_n_by_3 seeds = true) by (unfold is_n_by_3; now rewrite Hs).
  assert (Hi : iter seeds = Ok []) by (unfold iter; now rewrite Hs).
  rewrite (trace_batch R self output _ log H3 Hs Hi). reflexivity.
Qed.

Lemma trace_empty_batch_witness :
  shape Sample.batch_empty = [0; 3] /\
  trace Sample.R_sun Sample.tracer Sample.batch_empty Sample.output [] = (Ok [], []).
Proof.
  split; [reflexivity|].
  apply (@trace_empty_batch nat Sample.R_sun Sample.tracer Sample.output
           Sample.batch_empty []). reflexivity.
Defined.

(** X2.  On a batch of shape (n, 3) whose seeds the integrator all
    traces, [trace] makes exactly 2n integrator calls: for each seed in
    the order of the batch, the call with direction +1 and then the call
    with direction -1, each with [self.rtol] and [self.atol] in that
    order. *)
Theorem trace_call_sequence Time R self (output : Output Time) seeds n :
  shape seeds = [n; 3] ->
  (forall i seed, getitem seeds i = Ok seed ->
                  exists xforw xback, integrates self output seed xforw xback) ->
  exists subs,
    iter seeds = Ok subs /\
    calls (trace R self seeds output)
    = flat_map (fun seed => [Call 1 seed (rtol self) (atol self);
                             Call (-1) seed (rtol self) (atol self)]) subs /\
    length (calls (trace R self seeds output)) = 2 * n.
Proof.
  intros Hs Hint.
  assert (H3 : is_n_by_3 seeds = true) by (unfold is_n_by_3; now rewrite Hs).
  destruct (iter_getitem _ Hs) as (subs & Hi & Hlen & Hsub).
  exists subs. split; [exact Hi|].
  assert (Hall : forall seed, In seed subs ->
                   exists xf xb, integrates self output seed xf xb).
  { intros seed Hin. apply In_nth_error in Hin as [i Hi'].
    apply Hsub in Hi'. eauto. }
  assert (Hcalls : calls (trace R self seeds output)
                   = flat_map (fun seed => [Call 1 seed (rtol self) (atol self);
                                            Call (-1) seed (rtol self) (atol self)]) subs).
  { unfold calls. rewrite (trace_batch R self output _ [] H3 Hs Hi).
    fold (calls (trace_loop R self output subs [])).
    rewrite trace_loop_calls_ok.
    - clear - Hall. induction subs as [|seed subs IH]; [reflexivity|].
      cbn [flat_map]. rewrite IH by (intros; apply Hall; now right).
      f_equal. destruct (Hall seed (or_introl eq_refl)) as (xf & xb & Hxx).
      destruct (trace_seed_integrates R Hxx) as (fl & _ & Hc & _). exact Hc.
    - apply Forall_forall. intros seed Hin.
      destruct (Hall _ Hin) as (xf & xb & Hxx).
      destruct (trace_seed_integrates R Hxx) as (fl & Hfl & _). now rewrite Hfl. }
  split; [exact Hcalls|].
  rewrite Hcalls, <- Hlen. clear.
  induction subs as [|seed subs IH]; [reflexivity|].
  cbn [flat_map length app]. rewrite IH. lia.
Qed.

Lemma trace_call_sequence_witness :
  shape Sample.batch_ab = [2; 3] /\
  (forall i seed, getitem Sample.batch_ab i = Ok seed ->
                  exists xforw xback,
                    integrates Sample.tracer Sample.output seed xforw xback) /\
  calls (trace Sample.R_sun Sample.tracer Sample.batch_ab Sample.output)
  = [Call 1 Sample.seed_a lit_1e_4 lit_1e_4; Call (-1) Sample.seed_a lit_1e_4 lit_1e_4;
     Call 1 Sample.seed_b lit_1e_4 lit_1e_4; Call (-1) Sample.seed_b lit_1e_4 lit_1e_4].
Proof.
  split; [reflexivity|].
  split; [intros i seed _; apply TraceSpec.radial_integrates|].
  destruct (@trace_call_sequence nat Sample.R_sun Sample.tracer Sample.output
              Sample.batch_ab 2 eq_refl
              (fun i seed _ => TraceSpec.radial_integrates seed))
    as (subs & Hi & Hc & _).
  injection Hi as <-. exact Hc.
Defined.

(** X3.  [trace] stops at the first failure.  When the integrator traces
    the seeds [pre] and then raises [e] for the next seed, in the outward
    call or, the outward call having returned, in the inward call,
    [trace] raises [e]: the Field Lines of [pre] are not returned, the
    seeds after the failing one are never handed to the integrator, and
    the calls made are those of [pre] followed by the calls of the
    failing seed up to the one that raised. *)
Theorem trace_fails_fast Time R self (output : Output Time)
        seeds n pre seed post e log :
  shape seeds = [n; 3] ->
  iter seeds = Ok (pre ++ seed :: post) ->
  Forall (fun s => exists xforw xback, integrates self output s xforw xback) pre ->
  (_integrate_one_way output 1 seed (rtol self) (atol self) = Raise e \/
   (is_ok (_integrate_one_way output 1 seed (rtol self) (atol self)) = true /\
    _integrate_one_way output (-1) seed (rtol self) (atol self) = Raise e)) ->
  trace R self seeds output log
  = (Raise e,
     log ++ flat_map (fun s => [Call 1 s (rtol self) (atol self);
                                Call (-1) s (rtol self) (atol self)]) pre
         ++ Call 1 seed (rtol self) (atol self)
            :: (if is_ok (_integrate_one_way output 1 seed (rtol self) (atol self))
                then [Call (-1) seed (rtol self) (atol self)] else [])).
Proof.
  intros Hs Hi Hpre Hfail.
  assert (H3 : is_n_by_3 seeds = true) by (unfold is_n_by_3; now rewrite Hs).
  rewrite (trace_batch R self output _ log H3 Hs Hi).
  rewrite (framed_trace_loop R self output _ [] log).
  assert (Hok : Forall (fun s => is_ok (outcome (trace_seed R self output s)) = true) pre).
  { eapply Forall_impl; [|exact Hpre]. intros s (xf & xb & Hxx).
    destruct (trace_seed_integrates R Hxx) as (fl & Hfl & _). now rewrite Hfl. }
  assert (Hseed : outcome (trace_seed R self output seed) = Raise e).
  { unfold outcome, trace_seed, bind, integrate, lift, ret. cbn [app].
    destruct Hfail as [H1|[H1 H2]].
    - now rewrite H1.
    - destruct (_integrate_one_way output 1 seed (rtol self) (atol self));
        [|discriminate]. now rewrite H2. }
  destruct (@trace_loop_stops Time R self output pre seed post e [] Hok Hseed)
    as [Ho Hc].
  rewrite Ho, Hc. f_equal. f_equal.
  rewrite flat_map_app. cbn [flat_map]. rewrite app_nil_r.
  rewrite (trace_seed_calls R self output seed). f_equal.
  - clear - Hpre. induction Hpre as [|s pre (xf & xb & Hxx) _ IH]; [reflexivity|].
    cbn [flat_map]. rewrite IH. f_equal.
    destruct (trace_seed_integrates R Hxx) as (fl & _ & Hcs & _). exact Hcs.
  - f_equal. now destruct (_integrate_one_way output 1 seed (rtol self) (atol self)).
Qed.

Lemma trace_fails_fast_witness :
  shape Sample.batch_a_nan_b = [3; 3] /\
  iter Sample.batch_a_nan_b = Ok ([Sample.seed_a] ++ Sample.seed_nan :: [Sample.seed_b]) /\
  trace Sample.R_sun Sample.tracer Sample.batch_a_nan_b Sample.output_faulty []
  = (Raise (ValueError "start point is not finite"),
     [Call 1 Sample.seed_a lit_1e_4 lit_1e_4; Call (-1) Sample.seed_a lit_1e_4 lit_1e_4;
      Call 1 Sample.seed_nan lit_1e_4 lit_1e_4]).
Proof.
  split; [reflexivity|]. split; [reflexivity|].
  apply (@trace_fails_fast nat Sample.R_sun Sample.tracer Sample.output_faulty
           Sample.batch_a_nan_b 3 [Sample.seed_a] Sample.seed_nan [Sample.seed_b]
           (ValueError "start point is not finite") []).
  - reflexivity.
  - reflexivity.
  - constructor; [|constructor]. do 2 eexists. repeat split.
  - left. reflexivity.
Defined.

(** X4.  When [trace] rejects a batch, the message names the shape after
    [atleast_2d].  An input of rank at most two never gets the
    "must be a 2D array" message: it is rejected with the "(n, 3)"
    message and the promoted shape, so a vector of length k is reported
    as shape (1, k).  An input of rank three or more gets the
    "must be a 2D array" message with its own shape. *)
Theorem trace_rejection_message Time R self (output : Output Time) seeds log :
  is_n_by_3 (atleast_2d seeds) = false ->
  trace R self seeds output log
  = (Raise (ValueError
              (if ndim seeds <=? 2
               then "seeds must be a (n, 3) shaped array (got shape "
                      ++ str_tuple (shape (atleast_2d seeds)) ++ ")"
               else "seeds must be a 2D array (got shape "
                      ++ str_tuple (shape seeds) ++ ")")),
     log).
Proof.
  intros H. unfold trace, bind, lift.
  assert (E : validate_seeds_shape (atleast_2d seeds)
              = Raise (ValueError
                         (if ndim seeds <=? 2
                          then "seeds must be a (n, 3) shaped array (got shape "
                                 ++ str_tuple (shape (atleast_2d seeds)) ++ ")"
                          else "seeds must be a 2D array (got shape "
                                 ++ str_tuple (shape seeds) ++ ")"))).
  { unfold is_n_by_3 in H. unfold validate_seeds_shape, atleast_2d, ndim in *.
    destruct seeds as [[|d0 [|d1 [|d2 rest]]] d]; cbn in *.
    - reflexivity.
    - destruct d0 as [|[|[|[|d0]]]]; try discriminate; reflexivity.
    - destruct d1 as [|[|[|[|d1]]]]; try discriminate; reflexivity.
    - reflexivity. }
  now rewrite E.
Qed.

Lemma trace_rejection_message_witness :
  is_n_by_3 (atleast_2d Sample.vector4) = false /\
  trace Sample.R_sun Sample.tracer Sample.vector4 Sample.output []
  = (Raise (ValueError "seeds must be a (n, 3) shaped array (got shape (1, 4))"), []).
Proof.
  split; [reflexivity|].
  apply (@trace_rejection_message nat Sample.R_sun Sample.tracer Sample.output
           Sample.vector4 []). reflexivity.
Defined.

(** X5.  Whatever the integrator returns, every Field Line that [trace]
    returns carries the epoch [output.dtime], the frame
    HeliographicCarrington, the representation type 'cartesian', the
    field solution it was traced in and an unset expansion factor, and
    its x, y and z arrays have one common shape. *)
Theorem traced_lines_attributes Time R self (output : Output Time)
        seeds flines log log' :
  trace R self seeds output log = (Ok flines, log') ->
  Forall (fun fline =>
            frame fline = HeliographicCarrington /\
            obstime fline = dtime output /\
            representation_type fline = "cartesian"%string /\
            _output fline = output /\
            _expansion_factor fline = None /\
            shape (x fline) = shape (y fline) /\
            shape (y fline) = shape (z fline)) flines.
Proof.
  intros Htr. rewrite (framed_trace R self output seeds log) in Htr.
  injection Htr as Ho _. revert Ho.
  unfold outcome, trace, bind, lift.
  destruct (validate_seeds_shape (atleast_2d seeds)); [|discriminate].
  destruct (iter (atleast_2d seeds)) as [subs|]; [|discriminate].
  fold (outcome (trace_loop R self output subs [])).
  rewrite trace_loop_outcome. intros (fls & -> & H). simpl app.
  induction H as [|seed fl subs' fls' Hfl _ IH]; constructor; [|exact IH].
  apply (trace_seed_attributes R self output seed Hfl).
Qed.

Lemma traced_lines_attributes_witness :
  exists flines log',
    trace Sample.R_sun Sample.tracer Sample.batch_ab Sample.output [] = (Ok flines, log') /\
    length flines = 2 /\
    Forall (fun fline => obstime fline = 0 /\ _expansion_factor fline = None) flines.
Proof.
  do 2 eexists. split; [reflexivity|]. split; [reflexivity|].
  eapply Forall_impl;
    [|apply (@traced_lines_attributes nat Sample.R_sun Sample.tracer Sample.output
               Sample.batch_ab _ [] _ eq_refl)].
  intros fl (_ & Hobs & _ & _ & Hexp & _). split; assumption.
Defined.

(** X6.  When the two answers of the integrator for a seed are 2-d
    arrays with different numbers of rows, no Field Line is built: after
    both integrator calls, [row_stack] raises a ValueError, which [trace]
    lets through out of the loop body. *)
Theorem half_lines_row_mismatch Time R self (output : Output Time)
        seed xforw xback rf nf rb nb :
  _integrate_one_way output 1 seed (rtol self) (atol self) = Ok xforw ->
  _integrate_one_way output (-1) seed (rtol self) (atol self) = Ok xback ->
  shape xforw = [rf; nf] ->
  shape xback = [rb; nb] ->
  rf <> rb ->
  exists msg,
    outcome (trace_seed R self output seed) = Raise (ValueError msg) /\
    calls (trace_seed R self output seed)
    = [Call 1 seed (rtol self) (atol self); Call (-1) seed (rtol self) (atol self)].
Proof.
  intros Hf Hb Hsf Hsb Hne. eexists. split.
  - unfold outcome, trace_seed, bind, integrate, lift. cbn [app].
    rewrite Hf, Hb. unfold stitch, flip, ndim. rewrite Hsb.
    cbn [length Nat.ltb Nat.leb]. unfold row_stack, atleast_2d, T.
    cbn [shape]. rewrite Hsf. cbn [rev app shape].
    unfold shape_eqb. destruct (list_eq_dec Nat.eq_dec [rb] [rf]) as [E|_].
    + injection E as E. now elim Hne.
    + reflexivity.
  - rewrite trace_seed_calls, Hf. reflexivity.
Qed.

Lemma half_lines_row_mismatch_witness :
  exists msg,
    outcome (trace_seed Sample.R_sun Sample.tracer Sample.output_lopsided Sample.seed_a)
    = Raise (ValueError msg) /\
    calls (trace_seed Sample.R_sun Sample.tracer Sample.output_lopsided Sample.seed_a)
    = [Call 1 Sample.seed_a lit_1e_4 lit_1e_4; Call (-1) Sample.seed_a lit_1e_4 lit_1e_4].
Proof.
  apply (@half_lines_row_mismatch nat Sample.R_sun Sample.tracer Sample.output_lopsided
           Sample.seed_a _ _ 3 1 2 1 eq_refl eq_refl eq_refl eq_refl).
  lia.
Defined.

(** X7.  When both answers of the integrator are 2-d arrays with the same
    number of rows [r] and that number is below three, the stitching
    succeeds, the columns [xout[:, k]] with k below [r] are read, and
    building the Field Line raises the IndexError of [xout[:, r]], the
    first of [xout[:, 0]], [xout[:, 1]], [xout[:, 2]] whose index is not
    below [r]: "index r is out of bounds for axis 1 with size r". *)
Theorem half_lines_too_few_rows Time R self (output : Output Time)
        seed xforw xback r nf nb :
  _integrate_one_way output 1 seed (rtol self) (atol self) = Ok xforw ->
  _integrate_one_way output (-1) seed (rtol self) (atol self) = Ok xback ->
  shape xforw = [r; nf] -> wf xforw ->
  shape xback = [r; nb] -> wf xback ->
  r < 3 ->
  exists xout,
    stitch xforw xback = Ok xout /\
    shape xout = [nb + nf; r] /\
    (forall k, k < r -> is_ok (getitem_col xout k) = true) /\
    outcome (trace_seed R self output seed)
    = Raise (IndexError ("index " ++ str_nat r
                           ++ " is out of bounds for axis 1 with size " ++ str_nat r)).
Proof.
  intros Hf Hb Hsf Hwf Hsb Hwb Hr.
  eexists. split; [apply (stitch_rows Hsf Hwf Hsb Hwb)|].
  split; [reflexivity|].
  split; [intros k Hk; now rewrite (stitched_rows_col Hsf Hwf Hsb Hwb Hk)|].
  unfold outcome, trace_seed, bind, integrate, lift. cbn [app].
  rewrite Hf, Hb, (stitch_rows Hsf Hwf Hsb Hwb).
  destruct r as [|[|[|r]]]; [| | |lia].
  - now rewrite stitched_rows_col_out by lia.
  - rewrite (stitched_rows_col Hsf Hwf Hsb Hwb (k := 0)) by lia.
    now rewrite stitched_rows_col_out by lia.
  - rewrite (stitched_rows_col Hsf Hwf Hsb Hwb (k := 0)) by lia.
    rewrite (stitched_rows_col Hsf Hwf Hsb Hwb (k := 1)) by lia.
    now rewrite stitched_rows_col_out by lia.
Qed.

Lemma half_lines_too_few_rows_witness :
  outcome (trace_seed Sample.R_sun Sample.tracer (Sample.output_wide 1) Sample.seed_a)
  = Raise (IndexError "index 1 is out of bounds for axis 1 with size 1").
Proof.
  destruct (@half_lines_too_few_rows nat Sample.R_sun Sample.tracer (Sample.output_wide 1)
              Sample.seed_a _ _ 1 2 2 eq_refl eq_refl eq_refl eq_refl eq_refl eq_refl)
    as (xout & _ & _ & _ & H); [lia|].
  exact H.
Defined.

(** X8.  When both answers of the integrator are 2-d arrays with the same
    number of rows [r] and that number is three or more, the Field Line
    is built from the first three rows alone: its points are the first
    three coordinates of the reversed inward points followed by the
    outward points, times [R_sun]; the further rows are dropped without
    an error. *)
Theorem half_lines_extra_rows_dropped Time R self (output : Output Time)
        seed xforw xback r nf nb :
  _integrate_one_way output 1 seed (rtol self) (atol self) = Ok xforw ->
  _integrate_one_way output (-1) seed (rtol self) (atol self) = Ok xback ->
  shape xforw = [r; nf] -> wf xforw ->
  shape xback = [r; nb] -> wf xback ->
  3 <= r ->
  exists fline,
    outcome (trace_seed R self output seed) = Ok fline /\
    fline_points fline
    = map (to_metres R) (map (firstn 3) (rev (cols xback) ++ cols xforw)).
Proof.
  intros Hf Hb Hsf Hwf Hsb Hwb Hr. eexists.
  unfold outcome, trace_seed, bind, integrate, lift, ret. cbn [app].
  rewrite Hf, Hb, (stitch_rows Hsf Hwf Hsb Hwb).
  rewrite !(stitched_rows_col Hsf Hwf Hsb Hwb) by lia.
  cbn [fst]. split; [reflexivity|].
  unfold fline_points, mul_scalar; cbn [x y z data].
  unfold to_metres. rewrite zip3_map, (zip3_firstn Hr); [reflexivity|].
  eapply any_pts_widths; eauto.
Qed.

Lemma half_lines_extra_rows_dropped_witness :
  exists fline,
    outcome (trace_seed Sample.R_sun Sample.tracer (Sample.output_wide 4) Sample.seed_a)
    = Ok fline /\
    fline_points fline
    = map (to_metres Sample.R_sun)
          [[Sample.one; Sample.one; Sample.one];
           [Sample.one_half; Sample.zero; Sample.zero];
           [Sample.one_half; Sample.zero; Sample.zero];
           [Sample.one; Sample.one; Sample.one]].
Proof.
  apply (@half_lines_extra_rows_dropped nat Sample.R_sun Sample.tracer
           (Sample.output_wide 4) Sample.seed_a _ _ 4 2 2
           eq_refl eq_refl eq_refl eq_refl eq_refl eq_refl).
  lia.
Defined.

(** X9.  Exchanging the roles of the two half-lines reverses the stitched
    line: the rows of the array stitched from the inward array as outward
    half and the outward array as inward half are the rows of [xout] in
    reverse order. *)
Theorem stitch_swap_reverses xforw xback :
  is_streamline xforw = true ->
  is_streamline xback = true ->
  exists xout xout',
    stitch xforw xback = Ok xout /\
    stitch xback xforw = Ok xout' /\
    rows xout' = rev (rows xout).
Proof.
  intros Hf Hb.
  apply is_streamline_inv in Hf as (nf & Hsf & Hwf).
  apply is_streamline_inv in Hb as (nb & Hsb & Hwb).
  do 2 eexists.
  split; [apply (stitch_streamlines Hsf Hwf Hsb Hwb)|].
  split; [apply (stitch_streamlines Hsb Hwb Hsf Hwf)|].
  rewrite (rows_stitched Hsf Hwf Hsb Hwb), (rows_stitched Hsb Hwb Hsf Hwf).
  now rewrite rev_app_distr, rev_involutive.
Qed.

Lemma stitch_swap_reverses_witness :
  exists xout xout',
    stitch (NdArray [3; 2] [Sample.one; Sample.two; Sample.zero; Sample.zero;
                            Sample.zero; Sample.zero])
           (NdArray [3; 1] [Sample.one; Sample.zero; Sample.zero]) = Ok xout /\
    stitch (NdArray [3; 1] [Sample.one; Sample.zero; Sample.zero])
           (NdArray [3; 2] [Sample.one; Sample.two; Sample.zero; Sample.zero;
                            Sample.zero; Sample.zero]) = Ok xout' /\
    rows xout' = rev (rows xout).
Proof.
  apply stitch_swap_reverses; reflexivity.
Defined.

(** X10.  Tracing two batches stacked with [row_stack] is tracing the
    first and then the second: for batches of shapes (n, 3) and (m, 3)
    the stacked batch has shape (n + m, 3), and [trace] returns for it
    exactly when it returns for both, with the Field Lines of the first
    batch followed by those of the second. *)
Theorem trace_row_stack Time R self (output : Output Time) a b n m :
  shape a = [n; 3] -> wf a ->
  shape b = [m; 3] ->
  exists c,
    row_stack a b = Ok c /\
    shape c = [n + m; 3] /\
    forall flines,
      outcome (trace R self c output) = Ok flines <->
      exists fa fb,
        outcome (trace R self a output) = Ok fa /\
        outcome (trace R self b output) = Ok fb /\
        flines = fa ++ fb.
Proof.
  intros Ha Hwa Hb.
  exists (NdArray [n + m; 3] (data a ++ data b)).
  split; [|split; [reflexivity|]].
  { unfold row_stack, atleast_2d. rewrite Ha, Hb. cbn [shape]. rewrite Ha, Hb.
    reflexivity. }
  set (sa := map (NdArray [3]) (chunks 3 n (data a))).
  set (sb := map (NdArray [3]) (chunks 3 m (data b))).
  assert (Hia : iter a = Ok sa) by (unfold iter; now rewrite Ha).
  assert (Hib : iter b = Ok sb) by (unfold iter; now rewrite Hb).
  assert (Hic : iter (NdArray [n + m; 3] (data a ++ data b)) = Ok (sa ++ sb)).
  { unfold iter; cbn [shape data size fold_right Nat.mul]. f_equal.
    unfold sa, sb. rewrite <- map_app. f_equal.
    apply chunks_app. unfold wf in Hwa. rewrite Ha in Hwa.
    unfold size in Hwa; simpl in Hwa. lia. }
  assert (H3 : forall s k, shape s = [k; 3] -> is_n_by_3 s = true)
    by (intros s k E; unfold is_n_by_3; now rewrite E).
  intros flines. unfold outcome.
  rewrite (trace_batch R self output _ []
             (H3 (NdArray [n + m; 3] (data a ++ data b)) (n + m) eq_refl) eq_refl Hic).
  rewrite (trace_batch R self output _ [] (H3 _ _ Ha) Ha Hia).
  rewrite (trace_batch R self output _ [] (H3 _ _ Hb) Hb Hib).
  fold (outcome (trace_loop R self output (sa ++ sb) [])).
  fold (outcome (trace_loop R self output sa [])).
  fold (outcome (trace_loop R self output sb [])).
  rewrite trace_loop_outcome. split.
  - intros (fls & -> & H). apply Forall2_app_inv_l in H as (fa & fb & Hfa & Hfb & ->).
    exists fa, fb. split; [|split; [|reflexivity]].
    + apply trace_loop_outcome. exists fa. now split.
    + apply trace_loop_outcome. exists fb. now split.
  - intros (fa & fb & Hfa & Hfb & ->).
    apply trace_loop_outcome in Hfa as (fa' & -> & Hfa).
    apply trace_loop_outcome in Hfb as (fb' & -> & Hfb).
    exists (fa' ++ fb'). split; [reflexivity|]. now apply Forall2_app.
Qed.

Lemma trace_row_stack_witness :
  shape Sample.batch_ab = [2; 3] /\
  wf Sample.batch_ab /\
  shape Sample.batch_b = [1; 3] /\
  row_stack Sample.batch_ab Sample.batch_b = Ok Sample.batch_abb /\
  exists fa fb,
    outcome (trace Sample.R_sun Sample.tracer Sample.batch_ab Sample.output) = Ok fa /\
    outcome (trace Sample.R_sun Sample.tracer Sample.batch_b Sample.output) = Ok fb /\
    outcome (trace Sample.R_sun Sample.tracer Sample.batch_abb Sample.output)
    = Ok (fa ++ fb).
Proof.
  split; [reflexivity|]. split; [reflexivity|]. split; [reflexivity|].
  split; [reflexivity|].
  destruct (@trace_row_stack nat Sample.R_sun Sample.tracer Sample.output
              Sample.batch_ab Sample.batch_b 2 1 eq_refl eq_refl eq_refl)
    as (c & Hc & _ & H).
  injection Hc as <-.
  do 2 eexists. split; [reflexivity|]. split; [reflexivity|].
  apply H. do 2 eexists. split; [reflexivity|]. split; reflexivity.
Defined.

(** X11.  Every call that [trace] makes to the integrator, for any input
    and any integrator, has direction +1 or -1, carries [self.rtol] and
    [self.atol], and starts at one of the seeds [seeds[i]] of the batch
    made at least 2-d, passed on unchanged. *)
Theorem trace_call_discipline Time R self (output : Output Time) seeds c :
  In c (calls (trace R self seeds output)) ->
  (call_dt c = 1%Z \/ call_dt c = (-1)%Z) /\
  call_rtol c = rtol self /\
  call_atol c = atol self /\
  exists i, getitem (atleast_2d seeds) i = Ok (call_start_point c).
Proof.
  unfold calls at 1. unfold trace, bind, lift.
  destruct (validate_seeds_shape (atleast_2d seeds)); [|intros []].
  destruct (iter (atleast_2d seeds)) as [subs|] eqn:Hi; [|intros []].
  fold (calls (trace_loop R self output subs [])). intros Hc.
  apply trace_loop_calls_in in Hc as (seed & Hseed & Hc).
  assert (Hget : exists i, getitem (atleast_2d seeds) i = Ok seed).
  { destruct (shape (atleast_2d seeds)) as [|d0 rest] eqn:Hs.
    - unfold iter in Hi. now rewrite Hs in Hi.
    - destruct (iter_getitem _ Hs) as (subs' & Hi' & _ & Hsub).
      rewrite Hi in Hi'. injection Hi' as <-.
      apply In_nth_error in Hseed as [i Hn]. exists i. now apply Hsub. }
  rewrite trace_seed_calls in Hc. destruct Hc as [<-|Hc].
  - cbn. auto.
  - destruct (_integrate_one_way output 1 seed (rtol self) (atol self));
      [|destruct Hc].
    destruct Hc as [<-|[]]. cbn. auto.
Qed.

Lemma trace_call_discipline_witness :
  In (Call (-1) Sample.seed_b lit_1e_4 lit_1e_4)
     (calls (trace Sample.R_sun Sample.tracer Sample.batch_ab Sample.output)) /\
  exists i, getitem (atleast_2d Sample.batch_ab) i = Ok Sample.seed_b.
Proof.
  assert (H : In (Call (-1) Sample.seed_b lit_1e_4 lit_1e_4)
                 (calls (trace Sample.R_sun Sample.tracer Sample.batch_ab Sample.output)))
    by (do 3 right; left; reflexivity).
  split; [exact H|].
  apply (@trace_call_discipline nat Sample.R_sun Sample.tracer Sample.output
           Sample.batch_ab _ H).
Defined.

End TraceExtra.
